(** * jingo: the Jinja2 adapter for Django, as a shallow embedding

    The development follows [jingo/__init__.py]:
    - [Py]      : the Python values, [str], [str.join] and [%]-formatting
                  the cache-key computation relies on;
    - [MD5]     : [hashlib.md5(...).hexdigest()] (RFC 1321), executable;
    - [Jingo]   : the module itself: [Template.render], [load_helpers],
                  [render_to_string] with its inner [get_context], and
                  [Register.cached_inclusion_tag].

    Stateful code is written in a state-and-exception monad over a [world]
    that holds the module global [_helpers_loaded], the heap of dict
    objects, the [_jingo_context] attribute of every request, the cache
    service, and a trace of the calls made to collaborators. *)

From Stdlib Require Import ZArith List String Ascii DecimalString Lia.
From stdpp Require Import gmap strings list fin_maps.

Local Open Scope Z_scope.

(* ===================================================================== *)
(** ** Python values and string operations                               *)
(* ===================================================================== *)

Module Py.

(** The values that travel through contexts and call arguments. *)
Inductive value :=
| PNone
| PBool (b : bool)
| PInt (n : Z)
| PStr (s : string).

#[global] Instance value_eq_dec : EqDecision value.
Proof. solve_decision. Defined.

(** [str(a)] *)
Definition str (a : value) : string :=
  match a with
  | PNone => "None"
  | PBool true => "True"
  | PBool false => "False"
  | PInt n => NilZero.string_of_int (Z.to_int n)
  | PStr s => s
  end.

(** [sep.join(parts)] *)
Fixpoint join (sep : string) (parts : list string) : string :=
  match parts with
  | [] => ""
  | [p] => p
  | p :: rest => p +:+ sep +:+ join sep rest
  end.

(** ['%s_%s' % (k, v)] *)
Definition fmt_pair (kv : string * value) : string :=
  fst kv +:+ "_" +:+ str (snd kv).

(** A dict used as a finite map (contexts, processor output). *)
Abbreviation dict := (gmap string value).

(** [d.update(other)]: the keys of [other] overwrite those of [d]. *)
Definition update (d other : dict) : dict := other ∪ d.

(** Keyword arguments [**kw]: a dict whose iteration order matters,
    kept as the sequence [kw.items()] yields. *)
Abbreviation kwdict := (list (string * value)).

(** *** The keyword dict of a call, on CPython 2

    The module runs on Python 2 only, where a dict is an open-addressing
    hash table and [items()] walks its slots. What follows is
    [Objects/stringobject.c] and [Objects/dictobject.c] of CPython 2.7 for
    string keys, on a table nothing is deleted from; [bits] is the width of
    a C [long] (32 or 64), and hash randomization is off, as it is unless
    Python is started with [-R]. *)

Definition ord (c : ascii) : Z := Z.of_nat (nat_of_ascii c).

(** [string_hash]: the hash of a [str], as the unsigned pattern of the C
    [long]. *)
Definition string_hash (bits : Z) (s : string) : Z :=
  match s with
  | EmptyString => 0
  | String c _ =>
      let x := fold_left (fun x ch => Z.lxor ((1000003 * x) mod 2 ^ bits) (ord ch))
                 (list_ascii_of_string s) (Z.shiftl (ord c) 7 mod 2 ^ bits) in
      let x := Z.lxor x (Z.of_nat (String.length s)) in
      if x =? 2 ^ bits - 1 then 2 ^ bits - 2 else x
  end.

(** A slot of [ma_table] in use. *)
Record entry := Entry { me_key : string; me_hash : Z; me_value : value }.

(** [ma_table]: [ma_mask + 1] slots, [None] for a slot never used. *)
Abbreviation table := (list (option entry)).

Definition ma_mask (t : table) : Z := Z.of_nat (length t) - 1.

(** [ma_used], which is also [ma_fill] as nothing is ever deleted. *)
Definition ma_used (t : table) : Z :=
  Z.of_nat (length (List.filter (fun o : option entry => bool_decide (is_Some o)) t)).

(** The slot is free, or holds the key looked for. *)
Definition free_or_key (t : table) (i : Z) (key : string) (hash : Z) : bool :=
  match nth (Z.to_nat i) t None with
  | None => true
  | Some e => (me_hash e =? hash) && String.eqb (me_key e) key
  end.

(** The probe loop of [lookdict_string]:
    [i = (i << 2) + i + perturb + 1], then [perturb >>= 5]. *)
Fixpoint probe (bits : Z) (fuel : nat) (t : table) (key : string) (hash : Z)
    (i perturb : Z) : option Z :=
  match fuel with
  | O => None
  | S fuel' =>
      let i' := (Z.shiftl i 2 + i + perturb + 1) mod 2 ^ bits in
      let slot := Z.land i' (ma_mask t) in
      if free_or_key t slot key hash then Some slot
      else probe bits fuel' t key hash i' (Z.shiftr perturb 5)
  end.

(** [lookdict_string]: the slot of the key, or the free slot it goes to.
    [insertdict_clean] walks the same slots, on a table without the key. *)
Definition lookdict (bits : Z) (t : table) (key : string) (hash : Z) : option Z :=
  let i := Z.land hash (ma_mask t) in
  if free_or_key t i key hash then Some i
  else probe bits (Z.to_nat bits + length t) t key hash i hash.

(** [insertdict]: an existing key keeps its slot and takes the value. *)
Definition insertdict (bits : Z) (t : table) (e : entry) : option table :=
  match lookdict bits t (me_key e) (me_hash e) with
  | Some i => Some (<[Z.to_nat i := Some e]> t)
  | None => None
  end.

(** The size loop of [dictresize]: from [PyDict_MINSIZE = 8], doubled
    while [newsize <= minused]. *)
Fixpoint new_size (fuel : nat) (newsize minused : Z) : Z :=
  match fuel with
  | O => newsize
  | S fuel' =>
      if newsize <=? minused then new_size fuel' (2 * newsize) minused
      else newsize
  end.

(** [dictresize]: the entries go to a new table in the order of their
    slots in the old one. *)
Definition dictresize (bits : Z) (t : table) (minused : Z) : option table :=
  fold_left
    (fun acc o =>
       match acc, o with
       | Some t', Some e => insertdict bits t' e
       | _, _ => acc
       end)
    t (Some (repeat None (Z.to_nat (new_size (Z.to_nat bits) 8 minused)))).

(** [PyDict_SetItem]: insert, then resize when the table got a new key
    and is two thirds full. *)
Definition dict_setitem (bits : Z) (t : table) (key : string) (v : value)
    : option table :=
  let n_used := ma_used t in
  match insertdict bits t (Entry key (string_hash bits key) v) with
  | None => None
  | Some t' =>
      if (n_used <? ma_used t') && (2 * (ma_mask t' + 1) <=? 3 * ma_used t')
      then dictresize bits t' ((if 50000 <? ma_used t' then 2 else 4) * ma_used t')
      else Some t'
  end.

(** [kw.items()]: the entries in the order of the slots. *)
Definition dict_items (t : table) : kwdict :=
  flat_map (fun o : option entry =>
              match o with
              | Some e => [(me_key e, me_value e)]
              | None => []
              end) t.

(** The [kw] a call [f(k1=v1, ..., kn=vn)] hands to a wrapper declared
    with [*args, **kw]: a new dict, the keywords set in the order of the
    call. *)
Definition call_kw (bits : Z) (pairs : list (string * value)) : option kwdict :=
  match fold_left
          (fun acc kv =>
             match acc with
             | Some t => dict_setitem bits t (fst kv) (snd kv)
             | None => None
             end)
          pairs (Some (repeat None 8))
  with
  | Some t => Some (dict_items t)
  | None => None
  end.

End Py.

(* ===================================================================== *)
(** ** MD5 (RFC 1321), as [hashlib.md5(s).hexdigest()]                   *)
(* ===================================================================== *)

Module MD5.

Definition w32 : Z := 2 ^ 32.
Definition add32 (a b : Z) : Z := (a + b) mod w32.
Definition not32 (a : Z) : Z := Z.lxor a (w32 - 1).
Definition rotl32 (x c : Z) : Z :=
  Z.lor (Z.shiftl x c mod w32) (Z.shiftr x (32 - c)).

Definition F (b c d : Z) : Z := Z.lor (Z.land b c) (Z.land (not32 b) d).
Definition G (b c d : Z) : Z := Z.lor (Z.land b d) (Z.land c (not32 d)).
Definition H (b c d : Z) : Z := Z.lxor (Z.lxor b c) d.
Definition I (b c d : Z) : Z := Z.lxor c (Z.lor b (not32 d)).

(** [K[i] = floor(2^32 * |sin(i + 1)|)] *)
Definition K : list Z :=
  [ 0xd76aa478; 0xe8c7b756; 0x242070db; 0xc1bdceee;
    0xf57c0faf; 0x4787c62a; 0xa8304613; 0xfd469501;
    0x698098d8; 0x8b44f7af; 0xffff5bb1; 0x895cd7be;
    0x6b901122; 0xfd987193; 0xa679438e; 0x49b40821;
    0xf61e2562; 0xc040b340; 0x265e5a51; 0xe9b6c7aa;
    0xd62f105d; 0x02441453; 0xd8a1e681; 0xe7d3fbc8;
    0x21e1cde6; 0xc33707d6; 0xf4d50d87; 0x455a14ed;
    0xa9e3e905; 0xfcefa3f8; 0x676f02d9; 0x8d2a4c8a;
    0xfffa3942; 0x8771f681; 0x6d9d6122; 0xfde5380c;
    0xa4beea44; 0x4bdecfa9; 0xf6bb4b60; 0xbebfbc70;
    0x289b7ec6; 0xeaa127fa; 0xd4ef3085; 0x04881d05;
    0xd9d4d039; 0xe6db99e5; 0x1fa27cf8; 0xc4ac5665;
    0xf4292244; 0x432aff97; 0xab9423a7; 0xfc93a039;
    0x655b59c3; 0x8f0ccc92; 0xffeff47d; 0x85845dd1;
    0x6fa87e4f; 0xfe2ce6e0; 0xa3014314; 0x4e0811a1;
    0xf7537e82; 0xbd3af235; 0x2ad7d2bb; 0xeb86d391 ].

(** Per-round left-rotation amounts. *)
Definition S : list Z :=
  [ 7; 12; 17; 22; 7; 12; 17; 22; 7; 12; 17; 22; 7; 12; 17; 22;
    5;  9; 14; 20; 5;  9; 14; 20; 5;  9; 14; 20; 5;  9; 14; 20;
    4; 11; 16; 23; 4; 11; 16; 23; 4; 11; 16; 23; 4; 11; 16; 23;
    6; 10; 15; 21; 6; 10; 15; 21; 6; 10; 15; 21; 6; 10; 15; 21 ].

Definition bytes_of_string (s : string) : list Z :=
  map (fun c => Z.of_nat (nat_of_ascii c)) (list_ascii_of_string s).

(** [n] as [k] little-endian bytes. *)
Fixpoint le_bytes (k : nat) (n : Z) : list Z :=
  match k with
  | O => []
  | Datatypes.S k' => n mod 256 :: le_bytes k' (n / 256)
  end.

(** Padding: a 1 bit, zeros up to 56 mod 64 bytes, the bit length on
    64 bits. *)
Definition pad (msg : list Z) : list Z :=
  let len := Z.of_nat (length msg) in
  let zeros := Z.to_nat ((55 - len) mod 64) in
  msg ++ [128] ++ repeat 0 zeros ++ le_bytes 8 ((8 * len) mod 2 ^ 64).

(** Little-endian 32-bit words of a byte sequence. *)
Fixpoint words_of (fuel : nat) (bs : list Z) : list Z :=
  match fuel, bs with
  | Datatypes.S fuel', b0 :: b1 :: b2 :: b3 :: rest =>
      (b0 + 256 * (b1 + 256 * (b2 + 256 * b3))) :: words_of fuel' rest
  | _, _ => []
  end.

Definition words (bs : list Z) : list Z := words_of (length bs) bs.

Record regs := Regs { rA : Z; rB : Z; rC : Z; rD : Z }.

Definition init : regs :=
  Regs 0x67452301 0xefcdab89 0x98badcfe 0x10325476.

(** One of the 64 operations on the 16-word block [m]. *)
Definition step (m : list Z) (r : regs) (i : nat) : regs :=
  let '(Regs a b c d) := r in
  let iz := Z.of_nat i in
  let '(f, g) :=
    if iz <? 16 then (F b c d, iz)
    else if iz <? 32 then (G b c d, (5 * iz + 1) mod 16)
    else if iz <? 48 then (H b c d, (3 * iz + 5) mod 16)
    else (I b c d, (7 * iz) mod 16) in
  let f' := add32 (add32 (add32 f a) (nth i K 0)) (nth (Z.to_nat g) m 0) in
  Regs d (add32 b (rotl32 f' (nth i S 0))) b c.

Definition block (r : regs) (m : list Z) : regs :=
  let r' := fold_left (step m) (seq 0 64) r in
  Regs (add32 (rA r) (rA r')) (add32 (rB r) (rB r'))
       (add32 (rC r) (rC r')) (add32 (rD r) (rD r')).

Fixpoint blocks (fuel : nat) (r : regs) (ws : list Z) : regs :=
  match fuel, ws with
  | Datatypes.S fuel', _ :: _ => blocks fuel' (block r (firstn 16 ws)) (skipn 16 ws)
  | _, _ => r
  end.

Definition digest (s : string) : list Z :=
  let ws := words (pad (bytes_of_string s)) in
  let r := blocks (length ws) init ws in
  le_bytes 4 (rA r) ++ le_bytes 4 (rB r) ++ le_bytes 4 (rC r) ++ le_bytes 4 (rD r).

Definition hex_digit (n : Z) : ascii :=
  ascii_of_nat (Z.to_nat (if n <? 10 then 48 + n else 87 + n)).

Fixpoint hex (bs : list Z) : string :=
  match bs with
  | [] => EmptyString
  | b :: rest => String (hex_digit (b / 16)) (String (hex_digit (b mod 16)) (hex rest))
  end.

(** [md5(s).hexdigest()] *)
Definition hexdigest (s : string) : string := hex (digest s).

End MD5.

(* ===================================================================== *)
(** ** The module [jingo]                                                *)
(* ===================================================================== *)

Module Jingo.
Import Py.

(** *** Exceptions and results *)

Inductive exn :=
| AttributeError
| ImportError
| TemplateNotFound
| Exception (msg : string).

#[global] Instance exn_eq_dec : EqDecision exn.
Proof. solve_decision. Defined.

Inductive result (A : Type) :=
| Ok (a : A)
| Raise (e : exn).
Arguments Ok {A} a.
Arguments Raise {A} e.

(** *** Objects *)

(** Address of a dict object on the heap. *)
Abbreviation loc := positive.

(** Identity of a request object. *)
Abbreviation request := nat.

(** An imported module, with its [__path__] attribute when it has one. *)
Record pymodule := PyModule { path__ : option (list string) }.

(** A [jingo.Template]. *)
Record template := Tpl { filename : string }.

#[global] Instance template_eq_dec : EqDecision template.
Proof. solve_decision. Defined.

(** [jinja2.Markup(t)] *)
Inductive markup := Markup (t : string).

(** What [Template.render] receives: a [django.template.Context], whose
    [dicts] attribute is the sequence of layers, or a plain mapping. *)
Inductive context_arg :=
| CtxContext (dicts : option (list dict))
| CtxMapping (d : dict).

(** The [template] argument of [render_to_string]. *)
Inductive template_arg :=
| ByName (name : string)
| ByTemplate (t : template).

(** Calls made to collaborators, in the order they happen. *)
Inductive event :=
| EImport (name : string) (loaded : bool)
    (* a module is imported; [loaded] is [_helpers_loaded] at that time *)
| EFindModule (name : string) (path : list string)
| EProcessor (i : nat) (r : request)
    (* the [i]-th context processor is called with [r] *)
| ECall (args : list value) (kw : kwdict)
    (* the decorated function is executed *)
| EGetTemplate (name : string)
| ESignal (t : template)
| ERender (t : template) (context_dict : dict).
    (* jinja2 renders [t] against [context_dict] *)

#[global] Instance event_eq_dec : EqDecision event.
Proof. solve_decision. Defined.

(** *** The state of the process *)

Record world := World {
  helpers_loaded : bool;              (* the global [_helpers_loaded] *)
  heap : gmap loc dict;               (* dict objects *)
  jingo_context : gmap request loc;   (* [request._jingo_context] *)
  cache : gmap string string;         (* [django.core.cache.cache] *)
  trace : list event
}.

(** Module load: [_helpers_loaded = False]. *)
Definition initial_world : world := World false ∅ ∅ ∅ [].

Definition with_loaded (b : bool) (w : world) : world :=
  World b (heap w) (jingo_context w) (cache w) (trace w).
Definition with_heap (h : gmap loc dict) (w : world) : world :=
  World (helpers_loaded w) h (jingo_context w) (cache w) (trace w).
Definition with_jingo_context (j : gmap request loc) (w : world) : world :=
  World (helpers_loaded w) (heap w) j (cache w) (trace w).
Definition with_cache (c : gmap string string) (w : world) : world :=
  World (helpers_loaded w) (heap w) (jingo_context w) c (trace w).
Definition with_trace (t : list event) (w : world) : world :=
  World (helpers_loaded w) (heap w) (jingo_context w) (cache w) t.

(** *** The monad: state, and exceptions that keep the state *)

Definition M (A : Type) : Type := world -> result A * world.

Definition ret {A} (a : A) : M A := fun w => (Ok a, w).
Definition raise {A} (e : exn) : M A := fun w => (Raise e, w).
Definition bind {A B} (m : M A) (k : A -> M B) : M B :=
  fun w =>
    match m w with
    | (Ok a, w') => k a w'
    | (Raise e, w') => (Raise e, w')
    end.
Definition lift {A} (r : result A) : M A := fun w => (r, w).

Notation "x <- m ;; k" := (bind m (fun x => k))
  (at level 100, m at next level, right associativity).
Notation "m ;;; k" := (bind m (fun _ => k))
  (at level 100, right associativity).

(** [try: m  except e: handler] *)
Definition try_except {A} (m : M A) (e : exn) (handler : M A) : M A :=
  fun w =>
    match m w with
    | (Raise e', w') => if decide (e' = e) then handler w' else (Raise e', w')
    | r => r
    end.

(** [for x in xs: body(x)] *)
Fixpoint for_each {A} (xs : list A) (body : A -> M unit) : M unit :=
  match xs with
  | [] => ret tt
  | x :: rest => body x ;;; for_each rest body
  end.

Definition log (e : event) : M unit :=
  fun w => (Ok tt, with_trace (trace w ++ [e]) w).

(** *** Dict objects on the heap *)

(** The mapping stored at [l]. *)
Definition deref (l : loc) (w : world) : dict := default ∅ (heap w !! l).

Definition read_dict (l : loc) : M dict := fun w => (Ok (deref l w), w).

(** [{}], or any expression building a new dict object. *)
Definition new_dict (d : dict) : M loc :=
  fun w =>
    let l := fresh (dom (heap w)) in
    (Ok l, with_heap (<[l := d]> (heap w)) w).

(** [c.copy()] *)
Definition dict_copy (c : loc) : M loc := d <- read_dict c ;; new_dict d.

(** [l.update(other)], in place. *)
Definition dict_update (l : loc) (other : dict) : M unit :=
  fun w => (Ok tt, with_heap (alter (fun d => update d other) l (heap w)) w).

(** *** The cache service *)

Definition cache_get (k : string) : M (option string) :=
  fun w => (Ok (cache w !! k), w).
Definition cache_set (k t : string) : M unit :=
  fun w => (Ok tt, with_cache (<[k := t]> (cache w)) w).

(** *** Collaborators: settings, the import system, Django's context
    processors and the jinja2 engine *)

Record externals := Externals {
  INSTALLED_APPS : list string;
  TEMPLATE_DEBUG : bool;
  import_module : string -> result pymodule;
  find_module : string -> list string -> result unit;
  get_standard_processors : list (request -> result dict);
  jinja_get_template : string -> result template;
  jinja_render : template -> dict -> result string
}.

Section WithExternals.
Variable X : externals.

(** **** [Template.render] *)

(** Lines 34-39: the Django Context flattened into one dictionary. *)
Definition flatten (context : context_arg) : dict :=
  match context with
  | CtxContext dicts => fold_left update (default [] dicts) ∅
  | CtxMapping d => update ∅ d
  end.

Definition Template_render (self : template) (context : context_arg) : M string :=
  let context_dict := flatten context in
  (if TEMPLATE_DEBUG X then log (ESignal self) else ret tt) ;;;
  log (ERender self context_dict) ;;;
  lift (jinja_render X self context_dict).

(** **** [load_helpers] *)

(** An import statement or [import_module(name)]. *)
Definition import (name : string) : M pymodule :=
  fun w => (import_module X name, with_trace (trace w ++ [EImport name (helpers_loaded w)]) w).

(** [m.__path__] *)
Definition get_path (m : pymodule) : M (list string) :=
  match path__ m with
  | Some p => ret p
  | None => raise AttributeError
  end.

Definition imp_find_module (name : string) (path : list string) : M unit :=
  log (EFindModule name path) ;;; lift (find_module X name path).

(** The body of the loop over [settings.INSTALLED_APPS]; [None] and
    [false] stand for the two [continue]s. *)
Definition load_app (app : string) : M unit :=
  app_path <- try_except
                (m <- import app ;; p <- get_path m ;; ret (Some p))
                AttributeError
                (ret None) ;;
  match app_path with
  | None => ret tt
  | Some app_path =>
      found <- try_except
                 (imp_find_module "helpers" app_path ;;; ret true)
                 ImportError
                 (ret false) ;;
      if found : bool
      then import (app +:+ ".helpers") ;;; ret tt
      else ret tt
  end.

(** The import/discovery sequence, after the flag is set. *)
Definition discover : M unit :=
  import "jingo.helpers" ;;;
  for_each (INSTALLED_APPS X) load_app.

Definition load_helpers : M unit :=
  fun w =>
    if helpers_loaded w then (Ok tt, w)
    else discover (with_loaded true w).

(** [Environment.get_template] *)
Definition env_get_template (name : string) : M template :=
  load_helpers ;;;
  log (EGetTemplate name) ;;;
  lift (jinja_get_template X name).

(** **** [render_to_string] *)

Definition hasattr_jingo_context (r : request) : M bool :=
  fun w => (Ok (bool_decide (is_Some (jingo_context w !! r))), w).

(** [request._jingo_context] *)
Definition get_jingo_context (r : request) : M loc :=
  fun w =>
    match jingo_context w !! r with
    | Some l => (Ok l, w)
    | None => (Raise AttributeError, w)
    end.

(** [request._jingo_context = l] *)
Definition set_jingo_context (r : request) (l : loc) : M unit :=
  fun w => (Ok tt, with_jingo_context (<[r := l]> (jingo_context w)) w).

(** [processor(request)], for the [i]-th processor. *)
Definition call_processor (i : nat) (processor : request -> result dict)
    (r : request) : M dict :=
  log (EProcessor i r) ;;; lift (processor r).

(** The loop of lines 118-119, from the [i]-th processor on. *)
Fixpoint run_processors (i : nat) (ps : list (request -> result dict))
    (r : request) : M unit :=
  match ps with
  | [] => ret tt
  | processor :: rest =>
      target <- get_jingo_context r ;;
      d <- call_processor i processor r ;;
      dict_update target d ;;;
      run_processors (S i) rest r
  end.

(** The inner function [get_context] of [render_to_string]. *)
Definition get_context (r : request) (context : option loc) : M loc :=
  has <- hasattr_jingo_context r ;;
  (if negb has
   then l <- new_dict ∅ ;;
        set_jingo_context r l ;;;
        run_processors 0 (get_standard_processors X) r
   else ret tt) ;;;
  ctx <- match context with
         | None => new_dict ∅
         | Some c => dict_copy c
         end ;;
  jc <- get_jingo_context r ;;
  d <- read_dict jc ;;
  dict_update ctx d ;;;
  ret ctx.

(** Lines 120-122 of [get_context] on their own: what runs once the
    request has its mapping. *)
Definition merge_context (r : request) (context : option loc) : M loc :=
  ctx <- match context with
         | None => new_dict ∅
         | Some c => dict_copy c
         end ;;
  jc <- get_jingo_context r ;;
  d <- read_dict jc ;;
  dict_update ctx d ;;;
  ret ctx.

Definition render_to_string (r : request) (template : template_arg)
    (context : option loc) : M string :=
  t <- match template with
       | ByTemplate t => ret t
       | ByName name => env_get_template name
       end ;;
  ctx <- get_context r context ;;
  d <- read_dict ctx ;;
  Template_render t (CtxMapping d).

(** **** [Register.cached_inclusion_tag] *)

(** Lines 193-199: the key the wrapper reads and writes the cache at. *)
Definition cache_key (key : string) (kwargs : bool)
    (args : list value) (kw : kwdict) : string :=
  if kwargs && (negb (bool_decide (args = [])) || negb (bool_decide (kw = [])))
  then key +:+ "_" +:+
       MD5.hexdigest (join "_" [ join "_" (map str args);
                                 join "_" (map fmt_pair kw) ])
  else key.

(** The wrapper [cached_inclusion_tag(template, key, kwargs)(f)]
    registers, called with [*args, **kw]. *)
Definition cached_inclusion_tag (template key : string) (kwargs : bool)
    (f : list value -> kwdict -> result context_arg)
    (args : list value) (kw : kwdict) : M markup :=
  let key_ := cache_key key kwargs args kw in
  t <- cache_get key_ ;;
  t <- match t with
       | None =>
           context <- (log (ECall args kw) ;;; lift (f args kw)) ;;
           tpl <- env_get_template template ;;
           t <- Template_render tpl context ;;
           cache_set key_ t ;;;
           ret t
       | Some t => ret t
       end ;;
  ret (Markup t).

(** **** Drivers: repeated calls *)

(** [n] successive calls of [load_helpers()]; a call that raises still
    leaves its effects behind. *)
Definition invoke_n (n : nat) (w : world) : world :=
  Nat.iter n (fun w' => snd (load_helpers w')) w.

(** Successive context resolutions for the request [r], one for each
    explicit context of [contexts]. *)
Definition resolve_all (r : request) (contexts : list (option loc))
    (w : world) : world :=
  fold_left (fun w' c => snd (get_context r c w')) contexts w.

(** **** Reading the state *)

(** The explicit context of a call as a mapping: empty when absent. *)
Definition explicit (context : option loc) (h : gmap loc dict) : dict :=
  match context with
  | None => ∅
  | Some c => default ∅ (h !! c)
  end.

(** [P] is the processor output of the request [r] in [w]: the
    mapping stored on the request when there is one, and otherwise the
    outputs of the registered processors merged in order. *)
Definition processor_output (r : request) (w : world) (P : dict) : Prop :=
  match jingo_context w !! r with
  | Some lj => heap w !! lj = Some P
  | None =>
      exists ds, Forall2 (fun p d => p r = Ok d) (get_standard_processors X) ds
                 /\ P = fold_left update ds ∅
  end.

End WithExternals.

(** *** Reading traces *)

(** [w] after the events [evs], nothing else changed. *)
Definition logs (w : world) (evs : list event) : world :=
  with_trace (trace w ++ evs) w.

(** An event of helper discovery or template lookup, its imports made
    while [_helpers_loaded] was [b]. *)
Definition sees (b : bool) (e : event) : Prop :=
  match e with
  | EImport _ b' => b' = b
  | EFindModule _ _ | EGetTemplate _ => True
  | _ => False
  end.

(** The calls of the processors [ps], numbered from [i], with [r]. *)
Fixpoint processor_calls (i : nat) (ps : list (request -> result dict))
    (r : request) : list event :=
  match ps with
  | [] => []
  | _ :: rest => EProcessor i r :: processor_calls (S i) rest r
  end.

(** The events of [evs] that render a template. *)
Definition renders (evs : list event) : list event :=
  List.filter (fun e => match e with ERender _ _ => true | _ => false end) evs.

End Jingo.

(* ===================================================================== *)
(** ** A concrete installation, to run the model on                      *)
(* ===================================================================== *)

Module Demo.
Import Py Jingo.

(** The import system: [blog] is a single-file module (no [__path__]),
    [shop] is a package without [helpers], [wiki] and [forum] are packages
    with a [helpers] module, and importing [forum.helpers] fails. *)
Definition demo_import (name : string) : result pymodule :=
  if String.eqb name "jingo.helpers" then Ok (PyModule None)
  else if String.eqb name "blog" then Ok (PyModule None)
  else if String.eqb name "shop" then Ok (PyModule (Some ["/srv/shop"]))
  else if String.eqb name "wiki" then Ok (PyModule (Some ["/srv/wiki"]))
  else if String.eqb name "wiki.helpers" then Ok (PyModule None)
  else if String.eqb name "forum" then Ok (PyModule (Some ["/srv/forum"]))
  else if String.eqb name "forum.helpers" then Raise (Exception "boom")
  else Raise ImportError.

Definition demo_find (name : string) (path : list string) : result unit :=
  if bool_decide (path = ["/srv/shop"]) then Raise ImportError else Ok tt.

(** Two context processors; the second overwrites ["x"]. *)
Definition demo_processors : list (request -> result dict) :=
  [ fun _ => Ok (<[ "x" := PInt 0 ]> {[ "y" := PInt 3 ]});
    fun _ => Ok {[ "x" := PInt 2 ]} ].

Definition demo_get_template (name : string) : result template :=
  if String.eqb name "missing.html" then Raise TemplateNotFound
  else Ok (Tpl name).

(** Rendering shows the template and the variable ["x"]. *)
Definition demo_render (t : template) (d : dict) : result string :=
  Ok (filename t +:+ ":" +:+ str (default PNone (d !! "x"))).

Definition demo (apps : list string) : externals :=
  Externals apps false demo_import demo_find demo_processors
            demo_get_template demo_render.

Definition site : externals := demo ["blog"; "shop"; "wiki"].
Definition broken_site : externals := demo ["blog"; "forum"; "wiki"].

(** A decorated function: the context holds the first argument. *)
Definition demo_tag (args : list value) (kw : kwdict) : result context_arg :=
  Ok (CtxMapping {[ "x" := hd PNone args ]}).

(** A world where the caller has built the context [{"x": 1}]. *)
Definition caller_world : world :=
  with_heap {[ 1%positive := {[ "x" := PInt 1 ]} ]} initial_world.

End Demo.

(* ===================================================================== *)
(** ** The rest of the module: [Register], [inclusion_tag], [render],
       [Environment.from_string] and [get_env]                           *)
(* ===================================================================== *)

Module Registration.
Import Py Jingo.

(** What a registered function returns. *)
Inductive retval :=
| RValue (v : value)
| RContext (c : context_arg)
| RMarkup (m : markup).

(** A function object: its [__name__] and what a call does. *)
Record pyfunc := PyFunc {
  name__ : string;
  call : list value -> kwdict -> M retval
}.

(** The two tables of the Environment that [Register] writes to. *)
Record tables := Tables {
  filters : gmap string pyfunc;
  globals : gmap string pyfunc
}.

(** [Register.filter]: [self.env.filters[f.__name__] = f; return f] *)
Definition Register_filter (f : pyfunc) (env : tables) : pyfunc * tables :=
  (f, Tables (<[name__ f := f]> (filters env)) (globals env)).

(** [Register.function]: [self.env.globals[f.__name__] = f; return f] *)
Definition Register_function (f : pyfunc) (env : tables) : pyfunc * tables :=
  (f, Tables (filters env) (<[name__ f := f]> (globals env))).

Section WithExternals.
Variable X : externals.

(** The wrapper of [Register.inclusion_tag(template)(f)], called with
    [*args, **kw] (lines 176-179). *)
Definition inclusion_tag (template : string)
    (f : list value -> kwdict -> result context_arg)
    (args : list value) (kw : kwdict) : M markup :=
  context <- (log (ECall args kw) ;;; lift (f args kw)) ;;
  tpl <- env_get_template X template ;;
  t <- Template_render X tpl context ;;
  ret (Markup t).

(** [functools.wraps(f)]: the wrapper carries the [__name__] of [f]. *)
Definition wraps (fname : string) (wrapper : list value -> kwdict -> M markup)
    : pyfunc :=
  PyFunc fname (fun args kw => m <- wrapper args kw ;; ret (RMarkup m)).

(** The decorator [inclusion_tag(template)], applied to the function [f]
    named [fname]. *)
Definition inclusion_tag_decorator (template : string) (fname : string)
    (f : list value -> kwdict -> result context_arg) (env : tables)
    : pyfunc * tables :=
  Register_function (wraps fname (inclusion_tag template f)) env.

(** The decorator [cached_inclusion_tag(template, key, kwargs)]. *)
Definition cached_inclusion_tag_decorator (template key : string) (kwargs : bool)
    (fname : string) (f : list value -> kwdict -> result context_arg)
    (env : tables) : pyfunc * tables :=
  Register_function
    (wraps fname (cached_inclusion_tag X template key kwargs f)) env.

(** [Environment.from_string]; [jinja_from_string] is the method of
    [jinja2.Environment] it defers to. [Template.__new__] is this call. *)
Definition env_from_string (jinja_from_string : string -> result template)
    (source : string) : M template :=
  load_helpers X ;;;
  lift (jinja_from_string source).

(** The [django.http.HttpResponse] built from the text and the keywords. *)
Record HttpResponse := MkHttpResponse {
  content : string;
  response_kwargs : kwdict
}.

(** [render(request, template, context, ...)], with its keywords. *)
Definition render (r : request) (template : template_arg)
    (context : option loc) (kwargs : kwdict) : M HttpResponse :=
  rendered <- render_to_string X r template context ;;
  ret (MkHttpResponse rendered kwargs).

End WithExternals.

End Registration.

Module Env.
Import Py Jingo.

(** The loaders [get_env] builds. *)
Inductive loader :=
| FileSystemLoader (searchpath : string)
| PackageLoader (package_name : string).

(** A value of the options dict. *)
Inductive option_value :=
| OBool (b : bool)
| OExtensions (names : list string)
| OChoiceLoader (loaders : list loader)
| OValue (v : value).

Abbreviation options := (gmap string option_value).

(** [settings.JINJA_CONFIG]: absent, a dict, or a callable that returns
    one (and may raise). *)
Inductive jinja_config :=
| ConfigAbsent
| ConfigDict (config : options)
| ConfigCallable (config : unit -> result options).

Record settings := Settings {
  TEMPLATE_DIRS : list string;
  INSTALLED_APPS : list string;
  DEBUG : bool;
  JINJA_CONFIG : jinja_config
}.

(** The Environment [get_env] returns. *)
Record environment := Environment {
  env_options : options;
  template_class_is_jingo : bool;     (* [e.template_class = Template] *)
  null_translations : bool            (* [install_null_translations()] called *)
}.

(** Lines 66-68: [[loader(p) for loader, places in x for p in places]] *)
Definition loaders (s : settings) : list loader :=
  flat_map (fun x : (string -> loader) * list string => map (fst x) (snd x))
    [ (FileSystemLoader, TEMPLATE_DIRS s); (PackageLoader, INSTALLED_APPS s) ].

(** Lines 70-75 *)
Definition default_opts (s : settings) : options :=
  <[ "trim_blocks" := OBool true ]>
  (<[ "extensions" := OExtensions ["jinja2.ext.i18n"] ]>
  (<[ "autoescape" := OBool true ]>
  (<[ "auto_reload" := OBool (DEBUG s) ]>
  (<[ "loader" := OChoiceLoader (loaders s) ]> ∅)))).

(** [opts.update(config)] *)
Definition opts_update (opts config : options) : options := config ∪ opts.

(** Lines 77-82: the options after [JINJA_CONFIG] is applied. *)
Definition get_opts (s : settings) : result options :=
  let opts := default_opts s in
  match JINJA_CONFIG s with
  | ConfigAbsent => Ok opts
  | ConfigCallable f =>
      match f tt with
      | Ok config => Ok (opts_update opts config)
      | Raise e => Raise e
      end
  | ConfigDict config => Ok (opts_update opts config)
  end.

(** [get_env]; [extensions_of] gives the keys of [e.extensions] the
    jinja2 Environment built from the options ends up with. *)
Definition get_env (extensions_of : options -> list string) (s : settings)
    : result environment :=
  match get_opts s with
  | Raise e => Raise e
  | Ok opts =>
      Ok (Environment opts true
            (bool_decide ("jinja2.ext.i18n" ∈ extensions_of opts)))
  end.

End Env.

(* ===================================================================== *)
(** ** MD5 against its reference values                                  *)
(* ===================================================================== *)

Module MD5Tests.
Import MD5.

(** The test suite of RFC 1321, section A.5, and the block boundaries. *)
Example md5_empty : hexdigest "" = "d41d8cd98f00b204e9800998ecf8427e".
Proof. vm_compute. reflexivity. Qed.

Example md5_abc : hexdigest "abc" = "900150983cd24fb0d6963f7d28e17f72".
Proof. vm_compute. reflexivity. Qed.

Example md5_message_digest :
  hexdigest "message digest" = "f96b697d7cb7938d525a2f31aaf161d0".
Proof. vm_compute. reflexivity. Qed.

Example md5_one_block_55 :
  hexdigest "aaaaaaaaaaaaaaaaaaaaaaaaaaaaaaaaaaaaaaaaaaaaaaaaaaaaaaa"
  = "ef1772b6dff9a122358552954ad0df65".
Proof. vm_compute. reflexivity. Qed.

Example md5_two_blocks_56 :
  hexdigest "aaaaaaaaaaaaaaaaaaaaaaaaaaaaaaaaaaaaaaaaaaaaaaaaaaaaaaaa"
  = "3b0c8ac703f828b04c6c197006d17218".
Proof. vm_compute. reflexivity. Qed.

Example md5_two_blocks_64 :
  hexdigest "aaaaaaaaaaaaaaaaaaaaaaaaaaaaaaaaaaaaaaaaaaaaaaaaaaaaaaaaaaaaaaaa"
  = "014842d480b571495a4a0363793f7367".
Proof. vm_compute. reflexivity. Qed.

End MD5Tests.

(* ===================================================================== *)
(** ** Facts shared by the components                                    *)
(* ===================================================================== *)

Module Facts.
Import Py Jingo.

Lemma append_inj_l (p s1 s2 : string) : p +:+ s1 = p +:+ s2 -> s1 = s2.
Proof.
  induction p as [|c p IH]; intros Heq; [exact Heq |].
  change (String c (p +:+ s1) = String c (p +:+ s2)) in Heq.
  injection Heq as Heq. now apply IH.
Qed.

(** [join] of exactly two parts. *)
Lemma join_pair (sep a b : string) : join sep [a; b] = a +:+ sep +:+ b.
Proof. reflexivity. Qed.

(** Repeated [update]: a key no later dict has keeps its value. *)
Lemma fold_update_untouched (ds : list dict) (acc : dict) (k : string) :
  Forall (fun d => d !! k = None) ds ->
  fold_left update ds acc !! k = acc !! k.
Proof.
  intros Hds. revert acc.
  induction Hds as [|d ds Hd _ IH]; intros acc; simpl; [reflexivity |].
  rewrite IH. unfold update. now rewrite lookup_union_r.
Qed.

(** Repeated [update]: the last dict that has the key decides. *)
Lemma fold_update_last (ds1 ds2 : list dict) (d acc : dict) (k : string) (v : value) :
  d !! k = Some v ->
  Forall (fun d' => d' !! k = None) ds2 ->
  fold_left update (ds1 ++ d :: ds2) acc !! k = Some v.
Proof.
  intros Hd Hds2. rewrite fold_left_app. simpl.
  rewrite fold_update_untouched by assumption.
  unfold update. now apply lookup_union_Some_l.
Qed.

(** Unfolding the monad and the primitive operations, no further. *)
Ltac run :=
  cbv beta iota zeta delta
    [bind ret raise lift log new_dict dict_copy read_dict dict_update deref
     get_jingo_context set_jingo_context hasattr_jingo_context call_processor
     cache_get cache_set
     with_loaded with_heap with_jingo_context with_cache with_trace
     helpers_loaded heap jingo_context cache trace negb fst snd].

Lemma update_empty (d : dict) : update ∅ d = d.
Proof. unfold update. apply (right_id_L ∅ (∪)). Qed.

End Facts.

(* ===================================================================== *)
(** ** Facts about the loader and the engine                             *)
(* ===================================================================== *)

Module LoaderFacts.
Import Py Jingo Facts.

Lemma logs_nil (w : world) : logs w [] = w.
Proof. destruct w. unfold logs, with_trace. simpl. now rewrite app_nil_r. Qed.

Lemma logs_logs (w : world) (e1 e2 : list event) :
  logs (logs w e1) e2 = logs w (e1 ++ e2).
Proof. unfold logs, with_trace. simpl. now rewrite app_assoc. Qed.

(** Two spellings of one world, up to the bracketing of the trace. *)
Ltac same_world :=
  unfold logs, with_trace; simpl; rewrite <- ?app_assoc; reflexivity.

Section Discovery.
Variable X : externals.

(** The loop body only appends events, and its imports see the flag
    unchanged. *)
Lemma load_app_logs (app : string) (w : world) :
  exists evs, snd (load_app X app w) = logs w evs
              /\ Forall (sees (helpers_loaded w)) evs.
Proof.
  unfold load_app, try_except, bind, import, get_path, imp_find_module,
    log, lift, ret, raise. simpl.
  destruct (import_module X app) as [m | e]; simpl.
  - destruct (path__ m) as [p |]; simpl.
    + destruct (find_module X "helpers" p) as [[] | e]; simpl.
      * exists [EImport app (helpers_loaded w); EFindModule "helpers" p;
                EImport (app +:+ ".helpers") (helpers_loaded w)].
        split; [| repeat constructor].
        destruct (import_module X (app +:+ ".helpers")); same_world.
      * exists [EImport app (helpers_loaded w); EFindModule "helpers" p].
        split; [| repeat constructor].
        destruct (decide (e = ImportError)); same_world.
    + exists [EImport app (helpers_loaded w)].
      split; [same_world | repeat constructor].
  - exists [EImport app (helpers_loaded w)].
    split; [| repeat constructor].
    destruct (decide (e = AttributeError)); same_world.
Qed.

Lemma for_each_load_app_logs (apps : list string) (w : world) :
  exists evs, snd (for_each apps (load_app X) w) = logs w evs
              /\ Forall (sees (helpers_loaded w)) evs.
Proof.
  revert w. induction apps as [| app apps IH]; intros w; simpl.
  - exists []. now rewrite logs_nil.
  - unfold bind. destruct (load_app_logs app w) as (e1 & Hw1 & Hs1).
    destruct (load_app X app w) as [[[] | e] w1]; simpl in Hw1; subst w1.
    + destruct (IH (logs w e1)) as (e2 & Hw2 & Hs2).
      exists (e1 ++ e2). rewrite Hw2, logs_logs. split; [reflexivity |].
      apply Forall_app. now split.
    + now exists e1.
Qed.

Lemma discover_logs (w : world) :
  exists evs,
    snd (discover X w)
    = logs w (EImport "jingo.helpers" (helpers_loaded w) :: evs)
    /\ Forall (sees (helpers_loaded w)) evs.
Proof.
  unfold discover, bind, import.
  destruct (import_module X "jingo.helpers") as [m | e]; simpl.
  - destruct (for_each_load_app_logs (INSTALLED_APPS X)
                (logs w [EImport "jingo.helpers" (helpers_loaded w)]))
      as (evs & Hw & Hs).
    exists evs. fold (logs w [EImport "jingo.helpers" (helpers_loaded w)]).
    rewrite Hw, logs_logs. now split.
  - exists []. now split.
Qed.

(** Once the flag is set, [load_helpers] does nothing. *)
Lemma load_helpers_loaded (w : world) :
  helpers_loaded w = true -> load_helpers X w = (Ok tt, w).
Proof. intros Hl. unfold load_helpers. now rewrite Hl. Qed.

Lemma load_helpers_sets_flag (w : world) :
  helpers_loaded (snd (load_helpers X w)) = true.
Proof.
  unfold load_helpers. destruct (helpers_loaded w) eqn:Hl; [exact Hl |].
  destruct (discover_logs (with_loaded true w)) as (evs & Hw & _).
  now rewrite Hw.
Qed.

Lemma invoke_n_loaded (n : nat) (w : world) :
  helpers_loaded w = true -> invoke_n X n w = w.
Proof.
  intros Hl. induction n as [| n IH]; [reflexivity |].
  unfold invoke_n in *. simpl. rewrite IH. now rewrite load_helpers_loaded.
Qed.

Lemma invoke_n_succ (n : nat) (w : world) :
  invoke_n X (S n) w = invoke_n X n (snd (load_helpers X w)).
Proof. unfold invoke_n. now rewrite Nat.iter_succ_r. Qed.

Lemma for_each_app {A} (xs ys : list A) (body : A -> M unit) (w : world) :
  for_each (xs ++ ys) body w =
  match for_each xs body w with
  | (Ok _, w1) => for_each ys body w1
  | (Raise e, w1) => (Raise e, w1)
  end.
Proof.
  revert w. induction xs as [| x xs IH]; intros w; simpl; [reflexivity |].
  unfold bind. destruct (body x w) as [[[] | e] w1]; [apply IH | reflexivity].
Qed.

(** Whatever happens, [load_helpers] leaves the flag set and adds
    events only. *)
Lemma load_helpers_logs (w : world) :
  exists evs, snd (load_helpers X w) = logs (with_loaded true w) evs
              /\ Forall (sees true) evs.
Proof.
  unfold load_helpers. destruct (helpers_loaded w) eqn:Hl.
  - exists []. rewrite logs_nil. split; [| constructor].
    destruct w. simpl in Hl. now subst.
  - destruct (discover_logs (with_loaded true w)) as (evs & Hw & Hs).
    eexists. split; [exact Hw |]. constructor; [reflexivity | exact Hs].
Qed.

Lemma env_get_template_logs (name : string) (w : world) :
  exists evs, snd (env_get_template X name w) = logs (with_loaded true w) evs
              /\ Forall (sees true) evs.
Proof.
  unfold env_get_template, bind, log, lift.
  destruct (load_helpers_logs w) as (evs & Hw & Hs).
  destruct (load_helpers X w) as [[[] | e] w1]; simpl in Hw; subst w1.
  - exists (evs ++ [EGetTemplate name]). split; [same_world |].
    apply Forall_app. split; [exact Hs | repeat constructor].
  - now exists evs.
Qed.

(** Discovery and template lookup render nothing. *)
Lemma renders_loading (b : bool) (evs : list event) :
  Forall (sees b) evs -> renders evs = [].
Proof.
  induction 1 as [| e evs He _ IH]; [reflexivity |].
  unfold renders in *. simpl. rewrite IH. now destruct e.
Qed.

Lemma Template_render_run (self : template) (context : context_arg) (w : world) :
  Template_render X self context w =
  (jinja_render X self (flatten context),
   logs w ((if TEMPLATE_DEBUG X then [ESignal self] else [])
           ++ [ERender self (flatten context)])).
Proof.
  unfold Template_render, bind, log, lift, ret.
  destruct (TEMPLATE_DEBUG X); same_world.
Qed.

End Discovery.

End LoaderFacts.

(* ===================================================================== *)
(** ** [Template.render]: flattening the context                         *)
(* ===================================================================== *)

Module Flatten.
Import Py Jingo Facts LoaderFacts.

(** C7. The layers of a Context are merged in the order of [dicts], a
    later layer overwriting an earlier one: a key takes its value from
    the last layer that has it, and a key no layer has is absent. A plain
    mapping is copied as it is. Layers [{"a":1}, {"a":2,"b":3}] flatten to
    [{"a":2,"b":3}], and the flattened mapping is what jinja2 renders. *)
Theorem flatten_later_layer_wins :
  (forall (ds1 ds2 : list dict) (d : dict) (k : string) (v : value),
      d !! k = Some v ->
      Forall (fun d' => d' !! k = None) ds2 ->
      flatten (CtxContext (Some (ds1 ++ d :: ds2))) !! k = Some v)
  /\ (forall (ds : list dict) (k : string),
      Forall (fun d => d !! k = None) ds ->
      flatten (CtxContext (Some ds)) !! k = None)
  /\ (forall d : dict, flatten (CtxMapping d) = d)
  /\ flatten (CtxContext (Some [ {[ "a" := PInt 1 ]};
                                 <[ "a" := PInt 2 ]> {[ "b" := PInt 3 ]} ]))
     = <[ "a" := PInt 2 ]> {[ "b" := PInt 3 ]}
  /\ (forall X self context w,
      Template_render X self context w =
      (jinja_render X self (flatten context),
       logs w ((if TEMPLATE_DEBUG X then [ESignal self] else [])
               ++ [ERender self (flatten context)]))).
Proof.
  split; [| split; [| split; [| split]]].
  - intros ds1 ds2 d k v Hd Hds2. simpl. now apply fold_update_last.
  - intros ds k Hds. simpl. now rewrite fold_update_untouched.
  - intros d. apply update_empty.
  - vm_compute. reflexivity.
  - intros X self context w. apply Template_render_run.
Qed.

Lemma flatten_later_layer_wins_witness :
  flatten (CtxContext (Some ([ {[ "a" := PInt 1 ]} ]
                             ++ {[ "a" := PInt 2 ]} :: [ {[ "b" := PInt 3 ]} ])))
    !! "a" = Some (PInt 2).
Proof.
  apply (proj1 flatten_later_layer_wins).
  - vm_compute. reflexivity.
  - repeat constructor.
Defined.

End Flatten.

(* ===================================================================== *)
(** ** The cache key of [cached_inclusion_tag]                           *)
(* ===================================================================== *)

Module CacheKey.
Import Py Jingo Facts.

Arguments MD5.hexdigest : simpl never.

(** C1. With the [kwargs] flag true and at least one positional or
    keyword argument, the key is [key], an underscore, and the MD5 hex
    digest of: the [str] of the positional arguments joined by
    underscores, an underscore, the ["name_value"] keyword pairs joined by
    underscores. Otherwise it is [key] itself. *)
Theorem cache_key_spec (key : string) (kwargs : bool)
    (args : list value) (kw : kwdict) :
  cache_key key kwargs args kw =
  if kwargs && (0 <? length args + length kw)%nat
  then key +:+ "_" +:+
       MD5.hexdigest
         (join "_" (map str args) +:+ "_" +:+
          join "_" (map (fun kv => fst kv +:+ "_" +:+ str (snd kv)) kw))
  else key.
Proof.
  unfold cache_key. rewrite join_pair.
  destruct kwargs; [| reflexivity].
  destruct args as [|a args], kw as [|p kw]; reflexivity.
Qed.

(** C8. The keyword pairs are joined in the iteration order of [kw], not
    sorted: the calls [f(a=1, i=2)] and [f(i=2, a=1)] pass the same pairs,
    but ["a"] and ["i"] hash to the same slot, the dict built for each call
    iterates in the order of the call, and the two calls get different
    cache keys, whatever [key] is. This is so with a 32-bit and with a
    64-bit [long]. Names that do not share a slot, such as ["a"] and ["b"],
    come out in the one order of their slots in both calls. *)
Theorem kw_order_changes_key :
  exists pairs1 pairs2 kw1 kw2 : list (string * value),
    Permutation pairs1 pairs2
    /\ NoDup (map fst pairs1)
    /\ call_kw 32 pairs1 = Some kw1 /\ call_kw 64 pairs1 = Some kw1
    /\ call_kw 32 pairs2 = Some kw2 /\ call_kw 64 pairs2 = Some kw2
    /\ (forall key : string,
          cache_key key true [] kw1 <> cache_key key true [] kw2)
    /\ call_kw 32 [("b", PInt 2); ("a", PInt 1)] = call_kw 32 [("a", PInt 1); ("b", PInt 2)]
    /\ call_kw 64 [("b", PInt 2); ("a", PInt 1)] = call_kw 64 [("a", PInt 1); ("b", PInt 2)].
Proof.
  exists [("a", PInt 1); ("i", PInt 2)], [("i", PInt 2); ("a", PInt 1)],
         [("a", PInt 1); ("i", PInt 2)], [("i", PInt 2); ("a", PInt 1)].
  split; [apply perm_swap |].
  split; [apply (bool_decide_unpack _); vm_compute; reflexivity |].
  split; [vm_compute; reflexivity |]. split; [vm_compute; reflexivity |].
  split; [vm_compute; reflexivity |]. split; [vm_compute; reflexivity |].
  split; [| split; vm_compute; reflexivity].
  intros key Heq. rewrite !cache_key_spec in Heq. simpl in Heq.
  apply append_inj_l in Heq. vm_compute in Heq. discriminate Heq.
Qed.

(** The model against the interpreter: [hash("a")] on a 64-bit CPython 2,
    and the order of [dict.fromkeys("abcdefg")] and of a dict that has
    been resized. *)
Example string_hash_a : string_hash 64 "a" = 12416037344.
Proof. vm_compute. reflexivity. Qed.

Example call_kw_abcdefg :
  map fst <$> call_kw 64 (map (fun k => (k, PNone)) ["a"; "b"; "c"; "d"; "e"; "f"; "g"])
  = Some ["a"; "c"; "b"; "e"; "d"; "g"; "f"].
Proof. vm_compute. reflexivity. Qed.

End CacheKey.

(* ===================================================================== *)
(** ** [render_to_string]: the context resolver                          *)
(* ===================================================================== *)

Module Resolver.
Import Py Jingo Facts LoaderFacts.

Lemma fresh_unallocated (h : gmap loc dict) : h !! fresh (dom h) = None.
Proof. apply not_elem_of_dom, is_fresh. Qed.

Lemma allocated_not_fresh (h : gmap loc dict) (l : loc) :
  is_Some (h !! l) -> l <> fresh (dom h).
Proof. intros [d Hd] ->. rewrite fresh_unallocated in Hd. discriminate. Qed.

(** Allocation leaves the dicts that exist as they are. *)
Lemma lookup_insert_fresh (h : gmap loc dict) (l : loc) (d : dict) :
  is_Some (h !! l) -> <[fresh (dom h) := d]> h !! l = h !! l.
Proof.
  intros Hl. apply lookup_insert_ne, not_eq_sym. now apply allocated_not_fresh.
Qed.

Section Resolution.
Variable X : externals.

(** The processor loop writes to the request's mapping only, and calls
    a prefix of the processors, each once and in order. *)
Lemma run_processors_frame (ps : list (request -> result dict)) :
  forall (i : nat) (r : request) b h j c t (lj : loc),
    j !! r = Some lj ->
    exists (f : dict -> dict) (k : nat),
      snd (run_processors i ps r (World b h j c t))
      = World b (alter f lj h) j c (t ++ processor_calls i (take k ps) r).
Proof.
  induction ps as [| p ps IH]; intros i r b h j c t lj Hj.
  - exists id, 0%nat. simpl. rewrite app_nil_r.
    f_equal. symmetry. now apply alter_id.
  - simpl. unfold bind, get_jingo_context, call_processor, dict_update,
      log, lift, with_trace, with_heap. simpl. rewrite Hj.
    destruct (p r) as [d | e]; simpl.
    + destruct (IH (S i) r b (alter (fun d0 => update d0 d) lj h) j c
                  (t ++ [EProcessor i r]) lj Hj) as (f & k & Hw).
      exists (f ∘ (fun d0 => update d0 d)), (S k).
      rewrite Hw. simpl. rewrite <- app_assoc. simpl.
      now rewrite alter_alter_eq.
    + exists id, 1%nat. simpl.
      f_equal. symmetry. now apply alter_id.
Qed.

(** When no processor raises, all are called and their outputs are
    merged, in order, into the request's mapping. *)
Lemma run_processors_ok (ps : list (request -> result dict)) (ds : list dict) :
  forall (i : nat) (r : request) b h j c t (lj : loc),
    j !! r = Some lj ->
    Forall2 (fun p d => p r = Ok d) ps ds ->
    run_processors i ps r (World b h j c t)
    = (Ok tt, World b (alter (fold_left update ds) lj h) j c
                    (t ++ processor_calls i ps r)).
Proof.
  intros i r b h j c t lj Hj Hps. revert i h t.
  induction Hps as [| p d ps ds Hp _ IH]; intros i h t.
  - simpl. rewrite app_nil_r. unfold ret. do 2 f_equal.
    symmetry. now apply alter_id.
  - simpl. unfold bind, get_jingo_context, call_processor, dict_update,
      log, lift, with_trace, with_heap. simpl. rewrite Hj, Hp. simpl.
    rewrite IH. rewrite <- app_assoc. simpl.
    now rewrite alter_alter_eq.
Qed.

Lemma get_context_unfold (r : request) (context : option loc) :
  get_context X r context =
  (has <- hasattr_jingo_context r ;;
   (if negb has
    then l <- new_dict ∅ ;;
         set_jingo_context r l ;;;
         run_processors 0 (get_standard_processors X) r
    else ret tt) ;;;
   merge_context r context).
Proof. reflexivity. Qed.

(** The explicit context is copied to a fresh dict, which then takes
    the request's mapping on top. *)
Lemma merge_context_heap (r : request) (context : option loc)
    b h j c t (lj : loc) :
  j !! r = Some lj ->
  exists d,
    merge_context r context (World b h j c t)
    = (Ok (fresh (dom h)), World b (<[fresh (dom h) := d]> h) j c t).
Proof.
  intros Hj. unfold merge_context.
  destruct context as [c0 |]; run; rewrite Hj; run;
    rewrite alter_insert_eq; eexists; reflexivity.
Qed.

Lemma merge_context_run (r : request) (context : option loc)
    b h j c t (lj : loc) (P : dict) :
  j !! r = Some lj ->
  h !! lj = Some P ->
  let ctx := fresh (dom h) in
  merge_context r context (World b h j c t)
  = (Ok ctx, World b (<[ctx := update (explicit context h) P]> h) j c t).
Proof.
  intros Hj HP ctx.
  assert (Hne : lj <> ctx) by (apply allocated_not_fresh; eauto).
  unfold merge_context.
  destruct context as [c0 |]; run; rewrite Hj; run; fold ctx;
    rewrite alter_insert_eq, lookup_insert_ne, HP by congruence;
    reflexivity.
Qed.

(** A later resolution: the request already has its mapping. *)
Lemma get_context_memo (r : request) (context : option loc)
    b h j c t (lj : loc) (P : dict) :
  j !! r = Some lj ->
  h !! lj = Some P ->
  let ctx := fresh (dom h) in
  get_context X r context (World b h j c t)
  = (Ok ctx, World b (<[ctx := update (explicit context h) P]> h) j c t).
Proof.
  intros Hj HP ctx. rewrite get_context_unfold.
  unfold bind at 1. unfold hasattr_jingo_context.
  rewrite bool_decide_eq_true_2 by (cbn [jingo_context]; rewrite Hj; eauto).
  unfold bind at 1. cbv beta iota delta [negb ret].
  now apply (merge_context_run r context b h j c t lj P).
Qed.

(** The first resolution, when no processor raises. *)
Lemma get_context_first (r : request) (context : option loc)
    b h j c t (ds : list dict) :
  j !! r = None ->
  Forall2 (fun p d => p r = Ok d) (get_standard_processors X) ds ->
  let l0 := fresh (dom h) in
  let P := fold_left update ds ∅ in
  let h1 := <[l0 := P]> h in
  let ctx := fresh (dom h1) in
  get_context X r context (World b h j c t)
  = (Ok ctx,
     World b (<[ctx := update (explicit context h1) P]> h1) (<[r := l0]> j) c
           (t ++ processor_calls 0 (get_standard_processors X) r)).
Proof.
  intros Hj Hps l0 P h1 ctx. rewrite get_context_unfold.
  unfold bind at 1. unfold hasattr_jingo_context.
  rewrite bool_decide_eq_false_2 by (cbn [jingo_context]; rewrite Hj; intros [? ?]; discriminate).
  unfold bind at 1. cbv beta iota delta [negb].
  unfold bind at 1. unfold new_dict at 1. unfold bind at 1.
  unfold set_jingo_context at 1. run. fold l0.
  rewrite (run_processors_ok _ ds 0 r b _ _ c t l0)
    by (apply lookup_insert_eq || assumption).
  rewrite alter_insert_eq. fold P. fold h1.
  apply (merge_context_run r context b h1 _ c _ l0 P); apply lookup_insert_eq.
Qed.

(** Any resolution, whatever the processors do: the dicts that exist
    keep their contents, the flag and the cache are untouched, the
    request has its mapping afterwards, and the processors called are an
    initial segment of the registered ones, none when the request had
    its mapping already. *)
Lemma get_context_frame (r : request) (context : option loc) b h j c t :
  (forall lj, j !! r = Some lj -> is_Some (h !! lj)) ->
  exists res h' j' k,
    get_context X r context (World b h j c t)
    = (res, World b h' j' c
                  (t ++ processor_calls 0 (take k (get_standard_processors X)) r))
    /\ (forall l, is_Some (h !! l) -> h' !! l = h !! l)
    /\ (is_Some (j !! r) -> j' = j /\ k = 0%nat)
    /\ (exists lj, j' !! r = Some lj /\ is_Some (h' !! lj)).
Proof.
  intros Hwf. destruct (j !! r) as [lj |] eqn:Hj.
  - destruct (Hwf lj eq_refl) as [P HP].
    exists (Ok (fresh (dom h))),
      (<[fresh (dom h) := update (explicit context h) P]> h), j, 0%nat.
    rewrite (get_context_memo r context b h j c t lj P Hj HP).
    simpl. rewrite app_nil_r. split; [reflexivity |].
    split; [| split].
    + intros l Hl. now apply lookup_insert_fresh.
    + intros; now split.
    + exists lj. split; [assumption |].
      rewrite lookup_insert_fresh; eauto.
  - rewrite get_context_unfold.
    unfold bind at 1. unfold hasattr_jingo_context.
    rewrite bool_decide_eq_false_2
      by (cbn [jingo_context]; rewrite Hj; intros [? ?]; discriminate).
    unfold bind at 1. cbv beta iota delta [negb].
    unfold bind at 1. unfold new_dict at 1. unfold bind at 1.
    unfold set_jingo_context at 1. run.
    assert (Hl0 : <[r := fresh (dom h)]> j !! r = Some (fresh (dom h)))
      by apply lookup_insert_eq.
    destruct (run_processors_frame (get_standard_processors X) 0 r b
                (<[fresh (dom h) := ∅]> h) (<[r := fresh (dom h)]> j) c t
                (fresh (dom h)) Hl0) as (f & k & Hw).
    rewrite alter_insert_eq in Hw.
    destruct (run_processors 0 (get_standard_processors X) r _)
      as [[[] | e] w1]; simpl in Hw; subst w1.
    + rewrite (merge_context_run r context b _ _ c _ (fresh (dom h)) (f ∅) Hl0)
        by apply lookup_insert_eq.
      eexists _, _, _, k. split; [reflexivity |].
      split; [| split].
      * intros l Hl. rewrite lookup_insert_fresh.
        -- now apply lookup_insert_fresh.
        -- now rewrite lookup_insert_fresh.
      * intros [? ?]; discriminate.
      * exists (fresh (dom h)). split; [assumption |].
        rewrite lookup_insert_fresh; rewrite lookup_insert_eq; eauto.
    + eexists _, _, _, k. split; [reflexivity |].
      split; [| split].
      * intros l Hl. now apply lookup_insert_fresh.
      * intros [? ?]; discriminate.
      * exists (fresh (dom h)). split; [assumption |].
        rewrite lookup_insert_eq. eauto.
Qed.

(** Any resolution leaves the dicts that exist as they are, also when
    a processor raises. *)
Lemma get_context_heap (r : request) (context : option loc) (w : world)
    (l : loc) :
  is_Some (heap w !! l) ->
  heap (snd (get_context X r context w)) !! l = heap w !! l.
Proof.
  destruct w as [b h j c t]. cbn [heap]. intros Hl.
  rewrite get_context_unfold.
  unfold bind at 1. unfold hasattr_jingo_context. cbn [jingo_context].
  destruct (j !! r) as [lj |] eqn:Hj.
  - rewrite bool_decide_eq_true_2 by eauto.
    unfold bind at 1. cbv beta iota delta [negb ret].
    destruct (merge_context_heap r context b h j c t lj Hj) as [d ->].
    cbn [snd heap]. now apply lookup_insert_fresh.
  - rewrite bool_decide_eq_false_2 by (intros [? ?]; discriminate).
    unfold bind at 1. cbv beta iota delta [negb].
    unfold bind at 1. unfold new_dict at 1. unfold bind at 1.
    unfold set_jingo_context at 1. run.
    assert (Hl0 : <[r := fresh (dom h)]> j !! r = Some (fresh (dom h)))
      by apply lookup_insert_eq.
    destruct (run_processors_frame (get_standard_processors X) 0 r b
                (<[fresh (dom h) := ∅]> h) (<[r := fresh (dom h)]> j) c t
                (fresh (dom h)) Hl0) as (f & k & Hw).
    rewrite alter_insert_eq in Hw.
    destruct (run_processors 0 (get_standard_processors X) r _)
      as [[[] | e] w1]; simpl in Hw; subst w1.
    + destruct (merge_context_heap r context b (<[fresh (dom h) := f ∅]> h)
                  (<[r := fresh (dom h)]> j) c
                  (t ++ processor_calls 0 (take k (get_standard_processors X)) r)
                  (fresh (dom h)) Hl0) as [d ->].
      cbn [snd heap]. rewrite lookup_insert_fresh.
      * now apply lookup_insert_fresh.
      * now rewrite lookup_insert_fresh.
    + cbn [snd heap]. now apply lookup_insert_fresh.
Qed.

(** A resolution does not touch the flag or the cache. *)
Lemma get_context_shape (r : request) (context : option loc) b h j c t :
  exists h' j' t',
    snd (get_context X r context (World b h j c t)) = World b h' j' c t'.
Proof.
  rewrite get_context_unfold.
  unfold bind at 1. unfold hasattr_jingo_context. cbn [jingo_context].
  destruct (j !! r) as [lj |] eqn:Hj.
  - rewrite bool_decide_eq_true_2 by eauto.
    unfold bind at 1. cbv beta iota delta [negb ret].
    destruct (merge_context_heap r context b h j c t lj Hj) as [d ->].
    now eexists _, _, _.
  - rewrite bool_decide_eq_false_2 by (intros [? ?]; discriminate).
    unfold bind at 1. cbv beta iota delta [negb].
    unfold bind at 1. unfold new_dict at 1. unfold bind at 1.
    unfold set_jingo_context at 1. run.
    assert (Hl0 : <[r := fresh (dom h)]> j !! r = Some (fresh (dom h)))
      by apply lookup_insert_eq.
    destruct (run_processors_frame (get_standard_processors X) 0 r b
                (<[fresh (dom h) := ∅]> h) (<[r := fresh (dom h)]> j) c t
                (fresh (dom h)) Hl0) as (f & k & Hw).
    destruct (run_processors 0 (get_standard_processors X) r _)
      as [[[] | e] w1]; simpl in Hw; subst w1.
    + destruct (merge_context_heap r context b
                  (alter f (fresh (dom h)) (<[fresh (dom h) := ∅]> h))
                  (<[r := fresh (dom h)]> j) c
                  (t ++ processor_calls 0 (take k (get_standard_processors X)) r)
                  (fresh (dom h)) Hl0) as [d ->].
      now eexists _, _, _.
    + now eexists _, _, _.
Qed.

Lemma get_context_loaded (r : request) (context : option loc) (w : world) :
  helpers_loaded (snd (get_context X r context w)) = helpers_loaded w.
Proof.
  destruct w as [b h j c t].
  destruct (get_context_shape r context b h j c t) as (h' & j' & t' & ->).
  reflexivity.
Qed.

Lemma get_context_cache (r : request) (context : option loc) (w : world) :
  cache (snd (get_context X r context w)) = cache w.
Proof.
  destruct w as [b h j c t].
  destruct (get_context_shape r context b h j c t) as (h' & j' & t' & ->).
  reflexivity.
Qed.

(** Later resolutions, as many as wanted, neither call a processor nor
    change the request's mapping. *)
Lemma resolve_all_memo (r : request) (contexts : list (option loc)) :
  forall (w : world) (lj : loc) (P : dict),
    jingo_context w !! r = Some lj ->
    heap w !! lj = Some P ->
    let w' := resolve_all X r contexts w in
    trace w' = trace w
    /\ jingo_context w' = jingo_context w
    /\ heap w' !! lj = Some P.
Proof.
  induction contexts as [| c0 contexts IH]; intros w lj P Hj HP; simpl.
  - now repeat split.
  - destruct w as [b h j c t]. cbn [jingo_context heap] in Hj, HP.
    unfold resolve_all. simpl.
    rewrite (get_context_memo r c0 b h j c t lj P Hj HP). cbn [snd].
    destruct (IH (World b (<[fresh (dom h) := update (explicit c0 h) P]> h) j c t)
                lj P Hj) as (Ht & Hj' & HP').
    { cbn [heap]. rewrite lookup_insert_fresh; eauto. }
    now repeat split.
Qed.

(** Resolutions in sequence, whatever the processors do: the ones
    called are an initial segment of the registered ones, each once. *)
Lemma resolve_all_calls (r : request) (contexts : list (option loc)) (w : world) :
  jingo_context w !! r = None ->
  exists k,
    trace (resolve_all X r contexts w)
    = trace w ++ processor_calls 0 (take k (get_standard_processors X)) r.
Proof.
  intros Hj. destruct contexts as [| c0 contexts].
  - exists 0%nat. simpl. now rewrite app_nil_r.
  - destruct w as [b h j c t]. cbn [jingo_context] in Hj.
    destruct (get_context_frame r c0 b h j c t)
      as (res & h' & j' & k & Hrun & _ & _ & lj & Hj' & [P HP]).
    { intros lj Hlj. congruence. }
    exists k. unfold resolve_all. simpl. rewrite Hrun. cbn [snd].
    destruct (resolve_all_memo r contexts
                (World b h' j' c
                   (t ++ processor_calls 0 (take k (get_standard_processors X)) r))
                lj P Hj' HP) as (Ht & _).
    exact Ht.
Qed.

End Resolution.

(** C2. The resolver returns the explicit mapping (empty when absent)
    with the processor output of the request applied on top: a key of the
    processor output has the processors' value, whatever the caller gave
    for it, and any other key has the caller's. *)
Theorem get_context_processors_win (X : externals) (r : request)
    (context : option loc) (w : world) (P : dict) :
  processor_output X r w P ->
  (forall c, context = Some c -> is_Some (heap w !! c)) ->
  exists (l : loc) (w' : world),
    get_context X r context w = (Ok l, w')
    /\ heap w' !! l = Some (update (explicit context (heap w)) P)
    /\ (forall k v, P !! k = Some v ->
          update (explicit context (heap w)) P !! k = Some v)
    /\ (forall k, P !! k = None ->
          update (explicit context (heap w)) P !! k
          = explicit context (heap w) !! k)
    /\ processor_output X r w' P.
Proof.
  destruct w as [b h j c t]. unfold processor_output. cbn [jingo_context heap].
  intros HP Hctx.
  assert (Hkeys :
    (forall k v, P !! k = Some v -> update (explicit context h) P !! k = Some v)
    /\ (forall k, P !! k = None ->
          update (explicit context h) P !! k = explicit context h !! k)).
  { unfold update. split; intros.
    - now apply lookup_union_Some_l.
    - now apply lookup_union_r. }
  destruct Hkeys as [Hin Hout].
  destruct (j !! r) as [lj |] eqn:Hj.
  - rewrite (get_context_memo X r context b h j c t lj P Hj HP).
    eexists _, _. split; [reflexivity |]. cbn [jingo_context heap].
    split; [apply lookup_insert_eq |].
    split; [exact Hin |]. split; [exact Hout |].
    rewrite Hj. rewrite lookup_insert_fresh; eauto.
  - destruct HP as (ds & Hds & ->).
    rewrite (get_context_first X r context b h j c t ds Hj Hds).
    set (P := fold_left update ds ∅) in *.
    set (h1 := <[fresh (dom h) := P]> h).
    assert (HE : explicit context h1 = explicit context h).
    { destruct context as [c0 |]; [| reflexivity]. simpl.
      unfold h1. rewrite lookup_insert_fresh; auto. }
    eexists _, _. split; [reflexivity |]. cbn [jingo_context heap].
    rewrite HE.
    split; [apply lookup_insert_eq |].
    split; [exact Hin |]. split; [exact Hout |].
    rewrite lookup_insert_eq.
    rewrite lookup_insert_fresh; unfold h1; rewrite lookup_insert_eq; eauto.
Qed.

(** The specification's example: the caller gives [{"x": 1}], the
    processors produce [{"x": 2, "y": 3}]. *)
Lemma get_context_processors_win_witness :
  exists (l : loc) (w' : world),
    get_context Demo.site 7%nat (Some 1%positive) Demo.caller_world = (Ok l, w')
    /\ heap w' !! l = Some (<[ "x" := PInt 2 ]> {[ "y" := PInt 3 ]}).
Proof.
  destruct (get_context_processors_win Demo.site 7%nat (Some 1%positive)
              Demo.caller_world (<[ "x" := PInt 2 ]> {[ "y" := PInt 3 ]}))
    as (l & w' & Hrun & Hl & _).
  - exists [ <[ "x" := PInt 0 ]> {[ "y" := PInt 3 ]}; {[ "x" := PInt 2 ]} ].
    split; [repeat constructor | vm_compute; reflexivity].
  - intros c Hc. injection Hc as <-. vm_compute. eauto.
  - exists l, w'. split; [exact Hrun | exact Hl].
Defined.

(** Each registered processor occurs once in the calls of a full run. *)
Lemma processor_calls_count (ps : list (request -> result dict)) (r : request) :
  forall (i0 i : nat),
    count_occ event_eq_dec (processor_calls i0 ps r) (EProcessor i r)
    = if bool_decide (i0 <= i < i0 + length ps)%nat then 1%nat else 0%nat.
Proof.
  induction ps as [| p ps IH]; intros i0 i; cbn [processor_calls length].
  - rewrite bool_decide_eq_false_2 by lia. reflexivity.
  - destruct (decide (i0 = i)) as [-> | Hne].
    + rewrite count_occ_cons_eq by reflexivity. rewrite IH.
      rewrite (bool_decide_eq_false_2 (S i <= i < _)%nat) by lia.
      rewrite bool_decide_eq_true_2 by lia. reflexivity.
    + rewrite count_occ_cons_neq by congruence. rewrite IH.
      destruct (bool_decide (S i0 <= i < S i0 + length ps)%nat) eqn:Hb.
      * apply bool_decide_eq_true_1 in Hb.
        rewrite bool_decide_eq_true_2 by lia. reflexivity.
      * apply bool_decide_eq_false_1 in Hb.
        rewrite bool_decide_eq_false_2 by lia. reflexivity.
Qed.

(** C4. The processor output is computed at most once for a request.
    When the request has no mapping yet and no processor raises, one or
    more resolutions call every registered processor exactly once, in
    order, with the request, and leave on the request the outputs merged
    with the later processor winning. A resolution for a request that has
    its mapping calls no processor and leaves that mapping as it is.
    Whatever the processors do, the calls made over any number of
    resolutions are an initial segment of the registered processors. *)
Theorem processors_once (X : externals) (r : request) :
  (forall (w : world) (ds : list dict) (context : option loc)
          (contexts : list (option loc)),
      jingo_context w !! r = None ->
      Forall2 (fun p d => p r = Ok d) (get_standard_processors X) ds ->
      let w' := resolve_all X r (context :: contexts) w in
      trace w' = trace w ++ processor_calls 0 (get_standard_processors X) r
      /\ (forall i, (i < length (get_standard_processors X))%nat ->
            count_occ event_eq_dec
              (processor_calls 0 (get_standard_processors X) r) (EProcessor i r)
            = 1%nat)
      /\ exists lj, jingo_context w' !! r = Some lj
                    /\ heap w' !! lj = Some (fold_left update ds ∅))
  /\ (forall (w : world) (lj : loc) (P : dict) (context : option loc),
      jingo_context w !! r = Some lj ->
      heap w !! lj = Some P ->
      exists (l : loc) (w' : world),
        get_context X r context w = (Ok l, w')
        /\ trace w' = trace w
        /\ jingo_context w' !! r = Some lj
        /\ heap w' !! lj = Some P
        /\ heap w' !! l = Some (update (explicit context (heap w)) P))
  /\ (forall (w : world) (contexts : list (option loc)),
      jingo_context w !! r = None ->
      exists k,
        trace (resolve_all X r contexts w)
        = trace w ++ processor_calls 0 (take k (get_standard_processors X)) r)
  /\ (forall (ds1 ds2 : list dict) (d : dict) (k : string) (v : value),
      d !! k = Some v ->
      Forall (fun d' => d' !! k = None) ds2 ->
      fold_left update (ds1 ++ d :: ds2) ∅ !! k = Some v).
Proof.
  split; [| split; [| split]].
  - intros [b h j c t] ds context contexts Hj Hds. cbn [jingo_context] in Hj.
    unfold resolve_all. simpl.
    rewrite (get_context_first X r context b h j c t ds Hj Hds). cbn [snd].
    set (P := fold_left update ds ∅).
    set (h1 := <[fresh (dom h) := P]> h).
    set (w1 := World b _ _ c _).
    assert (Hj1 : jingo_context w1 !! r = Some (fresh (dom h)))
      by apply lookup_insert_eq.
    assert (HP1 : heap w1 !! fresh (dom h) = Some P).
    { unfold w1. cbn [heap].
      rewrite lookup_insert_fresh; unfold h1; rewrite lookup_insert_eq; eauto. }
    destruct (resolve_all_memo X r contexts w1 _ P Hj1 HP1) as (Ht & Hj' & HP').
    unfold resolve_all in Ht, Hj', HP'.
    split; [exact Ht |]. split.
    + intros i Hi. rewrite processor_calls_count.
      rewrite bool_decide_eq_true_2 by lia. reflexivity.
    + exists (fresh (dom h)). rewrite Hj'. now split.
  - intros [b h j c t] lj P context Hj HP. cbn [jingo_context heap] in Hj, HP.
    rewrite (get_context_memo X r context b h j c t lj P Hj HP).
    eexists _, _. split; [reflexivity |]. cbn [trace jingo_context heap].
    split; [reflexivity |]. split; [assumption |].
    split; [rewrite lookup_insert_fresh; eauto | apply lookup_insert_eq].
  - intros w contexts Hj. now apply resolve_all_calls.
  - intros ds1 ds2 d k v Hd Hds2. now apply fold_update_last.
Qed.

Lemma processors_once_witness :
  trace (resolve_all Demo.site 7%nat [None; Some 1%positive; None] Demo.caller_world)
  = [EProcessor 0 7; EProcessor 1 7].
Proof.
  apply (proj1 (processors_once Demo.site 7%nat) Demo.caller_world
           [ <[ "x" := PInt 0 ]> {[ "y" := PInt 3 ]}; {[ "x" := PInt 2 ]} ]
           None [Some 1%positive; None]).
  - vm_compute. reflexivity.
  - repeat constructor.
Defined.

(** C10. [render_to_string] does not change the mapping the caller
    passed as explicit context: the resolver works on a copy, and neither
    the processors' merge nor the rendering writes to a dict that existed
    before the call. This holds whether the call returns or raises. *)
Theorem render_to_string_keeps_context (X : externals) (r : request)
    (template : template_arg) (c : loc) (w : world) :
  is_Some (heap w !! c) ->
  heap (snd (render_to_string X r template (Some c) w)) !! c = heap w !! c.
Proof.
  intros Hc. unfold render_to_string. unfold bind at 1.
  assert (Htpl : forall res w1,
    (match template with
     | ByName name => env_get_template X name
     | ByTemplate t => ret t
     end) w = (res, w1) -> heap w1 = heap w).
  { intros res w1 Hrun. destruct template as [name | t].
    - destruct (env_get_template_logs X name w) as (evs & Hw & _).
      rewrite Hrun in Hw. simpl in Hw. now subst w1.
    - now injection Hrun as _ <-. }
  destruct (match template with
            | ByName name => env_get_template X name
            | ByTemplate t => ret t
            end w) as [[t | e] w1] eqn:Hrun;
    specialize (Htpl _ _ eq_refl); [| cbn [snd]; now rewrite Htpl].
  unfold bind at 1.
  assert (Hctx := get_context_heap X r (Some c) w1 c).
  rewrite Htpl in Hctx. specialize (Hctx Hc).
  destruct (get_context X r (Some c) w1) as [[l | e] w2]; cbn [snd] in Hctx;
    [| exact Hctx].
  unfold bind, read_dict. rewrite Template_render_run. exact Hctx.
Qed.

Lemma render_to_string_keeps_context_witness :
  heap (snd (render_to_string Demo.site 7%nat (ByName "page.html")
               (Some 1%positive) Demo.caller_world)) !! 1%positive
  = Some {[ "x" := PInt 1 ]}.
Proof.
  rewrite (render_to_string_keeps_context Demo.site 7%nat (ByName "page.html")
             1%positive Demo.caller_world).
  - vm_compute. reflexivity.
  - vm_compute. eauto.
Defined.

End Resolver.

(* ===================================================================== *)
(** ** [cached_inclusion_tag]: the memoizing wrapper                     *)
(* ===================================================================== *)

Module CachedTag.
Import Py Jingo Facts LoaderFacts.

(** Unfolding the monad, not the state. *)
Ltac steps := cbv beta iota zeta delta [bind ret raise lift cache_get cache_set].

Section Wrapper.
Variable X : externals.
Variables (name key : string) (kwargs : bool).

(** A hit returns the cached text and leaves the world as it is. *)
Lemma cached_hit (f : list value -> kwdict -> result context_arg)
    (args : list value) (kw : kwdict) (w : world) (t : string) :
  cache w !! cache_key key kwargs args kw = Some t ->
  cached_inclusion_tag X name key kwargs f args kw w = (Ok (Markup t), w).
Proof.
  intros Hhit. unfold cached_inclusion_tag. steps. now rewrite Hhit.
Qed.

(** A miss runs the function, renders, and stores the text. *)
Lemma cached_miss (f : list value -> kwdict -> result context_arg)
    (args : list value) (kw : kwdict) (w w1 : world)
    (context : context_arg) (tpl : template) (t : string) :
  cache w !! cache_key key kwargs args kw = None ->
  f args kw = Ok context ->
  env_get_template X name (logs w [ECall args kw]) = (Ok tpl, w1) ->
  jinja_render X tpl (flatten context) = Ok t ->
  cached_inclusion_tag X name key kwargs f args kw w
  = (Ok (Markup t),
     with_cache (<[cache_key key kwargs args kw := t]> (cache w))
       (logs w1 ((if TEMPLATE_DEBUG X then [ESignal tpl] else [])
                 ++ [ERender tpl (flatten context)]))).
Proof.
  intros Hmiss Hf Htpl Hr. unfold cached_inclusion_tag.
  unfold bind at 1. unfold cache_get at 1. rewrite Hmiss.
  unfold bind at 1. unfold bind at 1. unfold bind at 1.
  unfold log at 1, lift at 1. rewrite Hf.
  fold (logs w [ECall args kw]).
  unfold bind at 1. rewrite Htpl.
  unfold bind at 1. rewrite Template_render_run, Hr.
  destruct (env_get_template_logs X name (logs w [ECall args kw]))
    as (evs & Hw1 & _).
  rewrite Htpl in Hw1. simpl in Hw1. subst w1.
  steps. reflexivity.
Qed.

(** After a call that returned, any call that computes the same key
    is a hit, whatever its function and arguments. *)
Lemma cached_repeat (f f' : list value -> kwdict -> result context_arg)
    (args args' : list value) (kw kw' : kwdict) (w w1 : world) (m : markup) :
  cached_inclusion_tag X name key kwargs f args kw w = (Ok m, w1) ->
  cache_key key kwargs args' kw' = cache_key key kwargs args kw ->
  cached_inclusion_tag X name key kwargs f' args' kw' w1 = (Ok m, w1).
Proof.
  intros Hrun Hkey.
  destruct (cache w !! cache_key key kwargs args kw) as [t |] eqn:Hc.
  - rewrite (cached_hit f args kw w t Hc) in Hrun.
    injection Hrun as <- <-. apply cached_hit. now rewrite Hkey.
  - destruct (f args kw) as [context | e] eqn:Hf.
    + destruct (env_get_template X name (logs w [ECall args kw]))
        as [[tpl | e] w'] eqn:Htpl.
      * destruct (jinja_render X tpl (flatten context)) as [t | e] eqn:Hr.
        -- rewrite (cached_miss f args kw w w' context tpl t Hc Hf Htpl Hr) in Hrun.
           injection Hrun as <- <-. apply cached_hit. rewrite Hkey.
           apply lookup_insert_eq.
        -- exfalso. revert Hrun. unfold cached_inclusion_tag.
           unfold bind at 1. unfold cache_get at 1. rewrite Hc.
           unfold bind at 1. unfold bind at 1. unfold bind at 1.
           unfold log at 1, lift at 1. rewrite Hf.
           fold (logs w [ECall args kw]).
           unfold bind at 1. rewrite Htpl.
           unfold bind at 1. rewrite Template_render_run, Hr. discriminate.
      * exfalso. revert Hrun. unfold cached_inclusion_tag.
        unfold bind at 1. unfold cache_get at 1. rewrite Hc.
        unfold bind at 1. unfold bind at 1. unfold bind at 1.
        unfold log at 1, lift at 1. rewrite Hf.
        fold (logs w [ECall args kw]).
        unfold bind at 1. rewrite Htpl. discriminate.
    + exfalso. revert Hrun. unfold cached_inclusion_tag.
      unfold bind at 1. unfold cache_get at 1. rewrite Hc.
      unfold bind at 1. unfold bind at 1. unfold bind at 1.
      unfold log at 1, lift at 1. rewrite Hf. discriminate.
Qed.

Lemma renders_app (e1 e2 : list event) :
  renders (e1 ++ e2) = renders e1 ++ renders e2.
Proof. unfold renders. apply List.filter_app. Qed.

(** What a miss adds to the trace: the call of the function, discovery
    and template lookup, and one rendering. *)
Lemma cached_miss_trace (args : list value) (kw : kwdict) (w w1 : world)
    (res : result template) (tpl : template) (context : context_arg) :
  env_get_template X name (logs w [ECall args kw]) = (res, w1) ->
  (exists evs, trace w1 = trace w ++ ECall args kw :: evs
               /\ Forall (sees true) evs)
  /\ cache w1 = cache w
  /\ renders (trace w1) = renders (trace w)
  /\ renders (trace (logs w1 ((if TEMPLATE_DEBUG X then [ESignal tpl] else [])
                              ++ [ERender tpl (flatten context)])))
     = renders (trace w) ++ [ERender tpl (flatten context)].
Proof.
  intros Htpl.
  destruct (env_get_template_logs X name (logs w [ECall args kw]))
    as (evs & Hw1 & Hs).
  rewrite Htpl in Hw1. simpl in Hw1. subst w1.
  assert (Ht : trace (logs (with_loaded true (logs w [ECall args kw])) evs)
               = trace w ++ ECall args kw :: evs).
  { unfold logs, with_trace, with_loaded. simpl. now rewrite <- app_assoc. }
  assert (Hr : renders (trace w ++ ECall args kw :: evs) = renders (trace w)).
  { rewrite renders_app. change (ECall args kw :: evs) with ([ECall args kw] ++ evs).
    rewrite renders_app, (renders_loading true evs Hs). simpl.
    now rewrite app_nil_r. }
  split; [exists evs; now split |]. split; [reflexivity |].
  split; [now rewrite Ht |].
  unfold logs at 1. unfold with_trace. cbn [trace].
  rewrite renders_app, Ht, Hr. f_equal.
  rewrite renders_app. now destruct (TEMPLATE_DEBUG X).
Qed.

End Wrapper.

(** C5. When the cache holds a text for the key of the call, the wrapper
    returns it as Markup and does nothing else: the function is not
    executed and nothing is rendered. On a miss, when the function, the
    template lookup and the rendering return, the wrapper executes the
    function, renders the template against the context it returned,
    stores the text under the key and returns it as Markup. A second
    identical call is then a hit, so two consecutive calls render at most
    once. *)
Theorem cached_inclusion_tag_memoizes (X : externals) (name key : string)
    (kwargs : bool) (f : list value -> kwdict -> result context_arg)
    (args : list value) (kw : kwdict) (w : world) :
  (forall t : string,
      cache w !! cache_key key kwargs args kw = Some t ->
      cached_inclusion_tag X name key kwargs f args kw w = (Ok (Markup t), w))
  /\ (forall (context : context_arg) (tpl : template) (w1 : world) (t : string),
      cache w !! cache_key key kwargs args kw = None ->
      f args kw = Ok context ->
      env_get_template X name (logs w [ECall args kw]) = (Ok tpl, w1) ->
      jinja_render X tpl (flatten context) = Ok t ->
      exists w2 : world,
        cached_inclusion_tag X name key kwargs f args kw w = (Ok (Markup t), w2)
        /\ cache w2 = <[cache_key key kwargs args kw := t]> (cache w)
        /\ (exists evs, trace w1 = trace w ++ ECall args kw :: evs
                        /\ Forall (sees true) evs)
        /\ trace w2 = trace w1 ++ (if TEMPLATE_DEBUG X then [ESignal tpl] else [])
                               ++ [ERender tpl (flatten context)]
        /\ renders (trace w2)
           = renders (trace w) ++ [ERender tpl (flatten context)])
  /\ (forall (m : markup) (w1 : world),
      cached_inclusion_tag X name key kwargs f args kw w = (Ok m, w1) ->
      cached_inclusion_tag X name key kwargs f args kw w1 = (Ok m, w1)
      /\ (length (renders (trace w1)) <= length (renders (trace w)) + 1)%nat).
Proof.
  split; [| split].
  - intros t Hhit. now apply cached_hit.
  - intros context tpl w1 t Hmiss Hf Htpl Hr.
    destruct (cached_miss_trace X name args kw w w1 (Ok tpl) tpl context Htpl)
      as (Hcall & Hcache & _ & Hrenders).
    eexists. split; [now apply (cached_miss X name key kwargs f args kw w w1 context tpl t) |].
    split; [reflexivity |]. split; [exact Hcall |].
    split; [reflexivity | exact Hrenders].
  - intros m w1 Hrun.
    split; [now apply (cached_repeat X name key kwargs f f args args kw kw w w1 m) |].
    destruct (cache w !! cache_key key kwargs args kw) as [t |] eqn:Hc.
    + rewrite (cached_hit X name key kwargs f args kw w t Hc) in Hrun.
      injection Hrun as _ <-. lia.
    + revert Hrun. unfold cached_inclusion_tag.
      unfold bind at 1. unfold cache_get at 1. rewrite Hc.
      unfold bind at 1. unfold bind at 1. unfold bind at 1.
      unfold log at 1, lift at 1.
      destruct (f args kw) as [context | e]; [| discriminate].
      fold (logs w [ECall args kw]). unfold bind at 1.
      destruct (env_get_template X name (logs w [ECall args kw]))
        as [[tpl | e] w'] eqn:Htpl; [| discriminate].
      destruct (cached_miss_trace X name args kw w w' (Ok tpl) tpl context Htpl)
        as (_ & _ & _ & Hrenders).
      unfold bind at 1. rewrite Template_render_run.
      destruct (jinja_render X tpl (flatten context)) as [t | e]; [| discriminate].
      steps. intros Hrun. injection Hrun as _ <-.
      change (trace (with_cache _ ?w0)) with (trace w0).
      rewrite Hrenders, length_app. simpl. lia.
Qed.

(** [f(1, 2, name="a")] on the demonstration site, twice. *)
Lemma cached_inclusion_tag_memoizes_witness :
  let call := cached_inclusion_tag Demo.site "tag.html" "k" true Demo.demo_tag
                [PInt 1; PInt 2] [("name", PStr "a")] in
  fst (call initial_world) = Ok (Markup "tag.html:1")
  /\ call (snd (call initial_world)) = (Ok (Markup "tag.html:1"), snd (call initial_world))
  /\ length (renders (trace (snd (call initial_world)))) = 1%nat.
Proof.
  intros call.
  destruct (proj1 (proj2 (cached_inclusion_tag_memoizes Demo.site "tag.html" "k" true
              Demo.demo_tag [PInt 1; PInt 2] [("name", PStr "a")] initial_world))
              (CtxMapping {[ "x" := PInt 1 ]}) (Tpl "tag.html")
              (snd (env_get_template Demo.site "tag.html"
                      (logs initial_world [ECall [PInt 1; PInt 2] [("name", PStr "a")]])))
              "tag.html:1")
    as (w2 & Hrun & _ & _ & _ & Hrenders);
    [vm_compute; reflexivity .. |].
  fold call in Hrun. rewrite Hrun. cbn [fst snd].
  split; [reflexivity |]. split.
  - apply (proj2 (proj2 (cached_inclusion_tag_memoizes Demo.site "tag.html" "k" true
              Demo.demo_tag [PInt 1; PInt 2] [("name", PStr "a")] initial_world))
             (Markup "tag.html:1") w2 Hrun).
  - now rewrite Hrenders.
Defined.

(** C9. The cache key does not determine the arguments: the positional
    arguments [(1, 2)] and [("1_2",)] differ but have the same signature,
    hence the same key for any [key], flag and keyword arguments, and a
    call with the second after a call with the first returns the text
    cached for the first, without executing the function. *)
Theorem cache_key_collides :
  [PInt 1; PInt 2] <> [PStr "1_2"]
  /\ join "_" (map str [PInt 1; PInt 2]) = join "_" (map str [PStr "1_2"])
  /\ (forall (key : string) (kwargs : bool) (kw : kwdict),
        cache_key key kwargs [PInt 1; PInt 2] kw
        = cache_key key kwargs [PStr "1_2"] kw)
  /\ (forall (X : externals) (name key : string) (kwargs : bool)
             (f : list value -> kwdict -> result context_arg) (kw : kwdict)
             (w w1 : world) (m : markup),
        cached_inclusion_tag X name key kwargs f [PInt 1; PInt 2] kw w = (Ok m, w1) ->
        cached_inclusion_tag X name key kwargs f [PStr "1_2"] kw w1 = (Ok m, w1)).
Proof.
  assert (Hkey : forall (key : string) (kwargs : bool) (kw : kwdict),
             cache_key key kwargs [PInt 1; PInt 2] kw
             = cache_key key kwargs [PStr "1_2"] kw).
  { intros key kwargs kw. unfold cache_key. reflexivity. }
  split; [discriminate |]. split; [reflexivity |]. split; [exact Hkey |].
  intros X name key kwargs f kw w w1 m Hrun.
  apply (cached_repeat X name key kwargs f f [PInt 1; PInt 2] [PStr "1_2"] kw kw w w1 m Hrun).
  symmetry. apply Hkey.
Qed.

(** On the demonstration site the tag shows its first argument: the call
    with ["1_2"] alone yields ["tag.html:1_2"], but after the call with
    [(1, 2)] it yields the text of that call. *)
Lemma cache_key_collides_witness :
  let tag := cached_inclusion_tag Demo.site "tag.html" "k" true Demo.demo_tag in
  fst (tag [PStr "1_2"] [] initial_world) = Ok (Markup "tag.html:1_2")
  /\ fst (tag [PStr "1_2"] [] (snd (tag [PInt 1; PInt 2] [] initial_world)))
     = Ok (Markup "tag.html:1").
Proof.
  intros tag. split; [vm_compute; reflexivity |].
  unfold tag.
  rewrite (proj2 (proj2 (proj2 cache_key_collides)) Demo.site "tag.html" "k" true
             Demo.demo_tag [] initial_world
             (snd (cached_inclusion_tag Demo.site "tag.html" "k" true Demo.demo_tag
                     [PInt 1; PInt 2] [] initial_world))
             (Markup "tag.html:1")).
  - reflexivity.
  - vm_compute. reflexivity.
Defined.

End CachedTag.

(* ===================================================================== *)
(** ** [load_helpers]: run-once discovery                                *)
(* ===================================================================== *)

Module Loader.
Import Py Jingo Facts LoaderFacts.

Ltac steps :=
  cbv beta iota zeta delta
    [load_app try_except bind import get_path imp_find_module log lift ret raise].

Section Flag.
Variable X : externals.

(** Rendering a template by name or by object leaves a set flag set. *)
Lemma render_to_string_loaded (r : request) (template : template_arg)
    (context : option loc) (w : world) :
  helpers_loaded w = true ->
  helpers_loaded (snd (render_to_string X r template context w)) = true.
Proof.
  intros Hl. unfold render_to_string. unfold bind at 1.
  assert (Htpl : forall res w1,
    (match template with
     | ByName name => env_get_template X name
     | ByTemplate t => ret t
     end) w = (res, w1) -> helpers_loaded w1 = true).
  { intros res w1 Hrun. destruct template as [name | t].
    - destruct (env_get_template_logs X name w) as (evs & Hw & _).
      rewrite Hrun in Hw. simpl in Hw. now subst w1.
    - now injection Hrun as _ <-. }
  destruct (match template with
            | ByName name => env_get_template X name
            | ByTemplate t => ret t
            end w) as [[t | e] w1] eqn:Hrun;
    specialize (Htpl _ _ eq_refl); [| exact Htpl].
  unfold bind at 1.
  assert (Hctx := Resolver.get_context_loaded X r context w1).
  rewrite Htpl in Hctx.
  destruct (get_context X r context w1) as [[l | e] w2]; cbn [snd] in Hctx;
    [| exact Hctx].
  unfold bind, read_dict. rewrite Template_render_run. exact Hctx.
Qed.

Lemma cached_inclusion_tag_loaded (name key : string) (kwargs : bool)
    (f : list value -> kwdict -> result context_arg)
    (args : list value) (kw : kwdict) (w : world) :
  helpers_loaded w = true ->
  helpers_loaded (snd (cached_inclusion_tag X name key kwargs f args kw w)) = true.
Proof.
  intros Hl. unfold cached_inclusion_tag.
  unfold bind at 1. unfold cache_get at 1.
  destruct (cache w !! cache_key key kwargs args kw) as [t |]; [exact Hl |].
  unfold bind at 1. unfold bind at 1. unfold bind at 1.
  unfold log at 1, lift at 1.
  destruct (f args kw) as [context | e]; [| exact Hl].
  fold (logs w [ECall args kw]). unfold bind at 1.
  destruct (env_get_template_logs X name (logs w [ECall args kw]))
    as (evs & Hw & _).
  destruct (env_get_template X name (logs w [ECall args kw]))
    as [[tpl | e] w1]; simpl in Hw; subst w1; [| reflexivity].
  unfold bind at 1. rewrite Template_render_run.
  destruct (jinja_render X tpl (flatten context)); reflexivity.
Qed.

End Flag.

(** C3. [_helpers_loaded] starts false. From a state where it is false,
    one or more calls of [load_helpers] leave the process exactly where a
    single run of the import/discovery sequence leaves it: the flag is
    true, the trace has grown by the import of [jingo.helpers] and the
    discovery events once, and every import was made with the flag
    already true. With the flag true, [load_helpers] returns at once and
    changes nothing, and no entry point of the module sets the flag back
    to false. *)
Theorem load_helpers_once (X : externals) :
  helpers_loaded initial_world = false
  /\ (forall (w : world) (n : nat),
       helpers_loaded w = false ->
       (1 <= n)%nat ->
       invoke_n X n w = snd (discover X (with_loaded true w))
       /\ helpers_loaded (invoke_n X n w) = true
       /\ exists evs,
            invoke_n X n w
            = logs (with_loaded true w) (EImport "jingo.helpers" true :: evs)
            /\ Forall (sees true) evs)
  /\ (forall w : world,
       helpers_loaded w = true -> load_helpers X w = (Ok tt, w))
  /\ (forall w : world,
       helpers_loaded w = true ->
       helpers_loaded (snd (load_helpers X w)) = true
       /\ (forall r context,
             helpers_loaded (snd (get_context X r context w)) = true)
       /\ (forall r template context,
             helpers_loaded (snd (render_to_string X r template context w)) = true)
       /\ (forall name key kwargs f args kw,
             helpers_loaded
               (snd (cached_inclusion_tag X name key kwargs f args kw w)) = true)).
Proof.
  split; [reflexivity |]. split; [| split].
  - intros w n Hl Hn. destruct n as [| n]; [lia |].
    rewrite invoke_n_succ.
    assert (Hfirst : snd (load_helpers X w) = snd (discover X (with_loaded true w))).
    { unfold load_helpers. now rewrite Hl. }
    rewrite invoke_n_loaded by apply load_helpers_sets_flag.
    split; [exact Hfirst |]. split; [apply load_helpers_sets_flag |].
    rewrite Hfirst. apply (discover_logs X (with_loaded true w)).
  - intros w Hl. now apply load_helpers_loaded.
  - intros w Hl. split; [apply load_helpers_sets_flag |]. split; [| split].
    + intros r context. now rewrite Resolver.get_context_loaded.
    + intros r template context. now apply render_to_string_loaded.
    + intros name key kwargs f args kw. now apply cached_inclusion_tag_loaded.
Qed.

(** Three calls on the demonstration site: one discovery. *)
Lemma load_helpers_once_witness :
  trace (invoke_n Demo.site 3 initial_world)
  = [ EImport "jingo.helpers" true;
      EImport "blog" true;
      EImport "shop" true; EFindModule "helpers" ["/srv/shop"];
      EImport "wiki" true; EFindModule "helpers" ["/srv/wiki"];
      EImport "wiki.helpers" true ].
Proof.
  rewrite (proj1 (proj1 (proj2 (load_helpers_once Demo.site)) initial_world 3%nat
                    eq_refl ltac:(lia))).
  vm_compute. reflexivity.
Defined.

(** C6. In the loop over the installed applications, an application
    whose module has no [__path__], and an application in whose path no
    [helpers] module is found, are skipped: the loop goes on with the next
    application, after the import of the application (and the search),
    with no import of a helpers module and no error. When the helpers
    module is found, any exception its import raises is the outcome of
    [load_helpers]. *)
Theorem load_helpers_skips_and_propagates (X : externals) :
  (forall (app : string) (m : pymodule) (rest : list string) (w : world),
      import_module X app = Ok m ->
      path__ m = None ->
      for_each (app :: rest) (load_app X) w
      = for_each rest (load_app X) (logs w [EImport app (helpers_loaded w)]))
  /\ (forall (app : string) (m : pymodule) (p : list string)
             (rest : list string) (w : world),
      import_module X app = Ok m ->
      path__ m = Some p ->
      find_module X "helpers" p = Raise ImportError ->
      for_each (app :: rest) (load_app X) w
      = for_each rest (load_app X)
          (logs w [EImport app (helpers_loaded w); EFindModule "helpers" p]))
  /\ (forall (app : string) (m : pymodule) (p : list string) (e : exn)
             (before rest : list string) (w w1 : world),
      helpers_loaded w = false ->
      INSTALLED_APPS X = before ++ app :: rest ->
      (import X "jingo.helpers" ;;; for_each before (load_app X))
        (with_loaded true w) = (Ok tt, w1) ->
      import_module X app = Ok m ->
      path__ m = Some p ->
      find_module X "helpers" p = Ok tt ->
      import_module X (app +:+ ".helpers") = Raise e ->
      load_helpers X w
      = (Raise e, logs w1 [EImport app true; EFindModule "helpers" p;
                           EImport (app +:+ ".helpers") true])).
Proof.
  split; [| split].
  - intros app m rest w Hm Hp. cbn [for_each].
    steps. rewrite Hm. steps. rewrite Hp. steps.
    rewrite decide_True by reflexivity. reflexivity.
  - intros app m p rest w Hm Hp Hfind. cbn [for_each].
    steps. rewrite Hm. steps. rewrite Hp. steps. rewrite Hfind. steps.
    rewrite decide_True by reflexivity. f_equal. same_world.
  - intros app m p e before rest w w1 Hl Happs Hbefore Hm Hp Hfind Himp.
    unfold load_helpers. rewrite Hl. unfold discover. rewrite Happs.
    revert Hbefore. unfold bind.
    destruct (import X "jingo.helpers" (with_loaded true w)) as [[m0 | e0] w0]
      eqn:Hjh; [| discriminate].
    intros Hbefore. rewrite for_each_app, Hbefore.
    assert (Hw1 : helpers_loaded w1 = true).
    { assert (Hw0 : helpers_loaded w0 = true).
      { unfold import in Hjh. injection Hjh as _ Hw0.
        now apply (f_equal helpers_loaded) in Hw0. }
      destruct (for_each_load_app_logs X before w0) as (evs & Hw & _).
      rewrite Hbefore in Hw. simpl in Hw. now subst w1. }
    cbn [for_each].
    steps. rewrite Hm. steps. rewrite Hp. steps. rewrite Hfind. steps.
    cbn [helpers_loaded with_trace]. rewrite Himp, Hw1.
    f_equal. same_world.
Qed.

(** On the demonstration sites: [blog] has no [__path__], [shop] has no
    [helpers], and importing [forum.helpers] raises. *)
Lemma load_helpers_skips_and_propagates_witness :
  for_each ["blog"; "wiki"] (load_app Demo.site) initial_world
  = for_each ["wiki"] (load_app Demo.site) (logs initial_world [EImport "blog" false])
  /\ for_each ["shop"; "wiki"] (load_app Demo.site) initial_world
     = for_each ["wiki"] (load_app Demo.site)
         (logs initial_world [EImport "shop" false; EFindModule "helpers" ["/srv/shop"]])
  /\ fst (load_helpers Demo.broken_site initial_world) = Raise (Exception "boom").
Proof.
  destruct (load_helpers_skips_and_propagates Demo.site) as (Hpath & Hfind & _).
  destruct (load_helpers_skips_and_propagates Demo.broken_site) as (_ & _ & Hraise).
  split; [| split].
  - now apply (Hpath "blog" (PyModule None)).
  - now apply (Hfind "shop" (PyModule (Some ["/srv/shop"])) ["/srv/shop"]).
  - rewrite (Hraise "forum" (PyModule (Some ["/srv/forum"])) ["/srv/forum"]
               (Exception "boom") ["blog"] ["wiki"] initial_world
               (logs (with_loaded true initial_world)
                  [EImport "jingo.helpers" true; EImport "blog" true]));
      reflexivity.
Defined.

End Loader.

(* ===================================================================== *)
(** ** [inclusion_tag] and what the cache adds to it *)
(* ===================================================================== *)

Module Tags.
Import Py Jingo Registration Facts LoaderFacts CachedTag.

Section Wrappers.
Variable X : externals.
Variables (name key : string) (kwargs : bool).
Variable f : list value -> kwdict -> result context_arg.
Variables (args : list value) (kw : kwdict).

(** What the body shared by both wrappers does, case by case. *)
Lemma inclusion_tag_cases (w : world) :
  inclusion_tag X name f args kw w =
  match f args kw with
  | Raise e => (Raise e, logs w [ECall args kw])
  | Ok context =>
      match env_get_template X name (logs w [ECall args kw]) with
      | (Raise e, w1) => (Raise e, w1)
      | (Ok tpl, w1) =>
          let w2 := logs w1 ((if TEMPLATE_DEBUG X then [ESignal tpl] else [])
                             ++ [ERender tpl (flatten context)]) in
          match jinja_render X tpl (flatten context) with
          | Ok t => (Ok (Markup t), w2)
          | Raise e => (Raise e, w2)
          end
      end
  end.
Proof.
  unfold inclusion_tag.
  unfold bind at 1. unfold bind at 1. unfold log at 1, lift at 1.
  fold (logs w [ECall args kw]).
  destruct (f args kw) as [context | e]; [| reflexivity].
  unfold bind at 1.
  destruct (env_get_template X name (logs w [ECall args kw])) as [[tpl | e] w1];
    [| reflexivity].
  unfold bind at 1. rewrite Template_render_run.
  destruct (jinja_render X tpl (flatten context)); reflexivity.
Qed.

Lemma cached_inclusion_tag_miss_cases (w : world) :
  cache w !! cache_key key kwargs args kw = None ->
  cached_inclusion_tag X name key kwargs f args kw w =
  match f args kw with
  | Raise e => (Raise e, logs w [ECall args kw])
  | Ok context =>
      match env_get_template X name (logs w [ECall args kw]) with
      | (Raise e, w1) => (Raise e, w1)
      | (Ok tpl, w1) =>
          let w2 := logs w1 ((if TEMPLATE_DEBUG X then [ESignal tpl] else [])
                             ++ [ERender tpl (flatten context)]) in
          match jinja_render X tpl (flatten context) with
          | Ok t => (Ok (Markup t),
                     with_cache (<[cache_key key kwargs args kw := t]> (cache w2)) w2)
          | Raise e => (Raise e, w2)
          end
      end
  end.
Proof.
  intros Hmiss. unfold cached_inclusion_tag.
  unfold bind at 1. unfold cache_get at 1. rewrite Hmiss.
  unfold bind at 1. unfold bind at 1. unfold bind at 1.
  unfold log at 1, lift at 1. fold (logs w [ECall args kw]).
  destruct (f args kw) as [context | e]; [| reflexivity].
  unfold bind at 1.
  destruct (env_get_template X name (logs w [ECall args kw])) as [[tpl | e] w1];
    [| reflexivity].
  unfold bind at 1. rewrite Template_render_run.
  destruct (jinja_render X tpl (flatten context)); reflexivity.
Qed.

(** The plain wrapper changes the flag and the trace, nothing else. *)
Lemma inclusion_tag_logs (w : world) :
  exists b evs,
    snd (inclusion_tag X name f args kw w)
    = logs (with_loaded b w) (ECall args kw :: evs)
    /\ (helpers_loaded w = true -> b = true).
Proof.
  rewrite inclusion_tag_cases.
  destruct (f args kw) as [context | e].
  - destruct (env_get_template_logs X name (logs w [ECall args kw]))
      as (evs & Hw1 & _).
    destruct (env_get_template X name (logs w [ECall args kw]))
      as [[tpl | e] w1]; simpl in Hw1; subst w1.
    + exists true, (evs ++ (if TEMPLATE_DEBUG X then [ESignal tpl] else [])
                        ++ [ERender tpl (flatten context)]).
      split; [| reflexivity].
      destruct (jinja_render X tpl (flatten context)); cbn [snd];
        unfold logs, with_trace, with_loaded; simpl;
        rewrite <- !app_assoc; reflexivity.
    + exists true, evs. split; [| reflexivity].
      unfold logs, with_trace, with_loaded; simpl.
      rewrite <- !app_assoc. reflexivity.
  - exists (helpers_loaded w), []. split; [| auto]. cbn [snd].
    destruct w; reflexivity.
Qed.

Lemma inclusion_tag_cache (w : world) :
  cache (snd (inclusion_tag X name f args kw w)) = cache w.
Proof. now destruct (inclusion_tag_logs w) as (b & evs & -> & _). Qed.

(** On a miss, the cached wrapper is the plain one followed by the store. *)
Lemma cached_miss_plain (w : world) :
  cache w !! cache_key key kwargs args kw = None ->
  cached_inclusion_tag X name key kwargs f args kw w =
  match inclusion_tag X name f args kw w with
  | (Ok (Markup t), w') =>
      (Ok (Markup t),
       with_cache (<[cache_key key kwargs args kw := t]> (cache w')) w')
  | (Raise e, w') => (Raise e, w')
  end.
Proof.
  intros Hmiss. rewrite (cached_inclusion_tag_miss_cases w Hmiss).
  rewrite inclusion_tag_cases.
  destruct (f args kw) as [context | e]; [| reflexivity].
  destruct (env_get_template X name (logs w [ECall args kw])) as [[tpl | e] w1];
    [| reflexivity].
  cbv zeta. destruct (jinja_render X tpl (flatten context)); reflexivity.
Qed.

(** A template lookup that returns has asked the engine. *)
Lemma env_get_template_ok (tname : string) (w w1 : world) (tpl : template) :
  env_get_template X tname w = (Ok tpl, w1) ->
  jinja_get_template X tname = Ok tpl.
Proof.
  unfold env_get_template, bind, log, lift.
  destruct (load_helpers X w) as [[[] | e] w0]; [| discriminate].
  now intros [= -> _].
Qed.

(** With the flag set, a template lookup goes straight to the engine. *)
Lemma env_get_template_loaded (tname : string) (w : world) :
  helpers_loaded w = true ->
  env_get_template X tname w
  = (jinja_get_template X tname, logs w [EGetTemplate tname]).
Proof.
  intros Hl. unfold env_get_template, bind, log, lift.
  now rewrite load_helpers_loaded.
Qed.

End Wrappers.

(** X1. Whatever a call of the plain inclusion tag does, it leaves the
    cache, the dicts on the heap and the requests' mappings untouched, it
    never unsets the flag, and it has executed the function. *)
Theorem inclusion_tag_frame (X : externals) (name : string)
    (f : list value -> kwdict -> result context_arg)
    (args : list value) (kw : kwdict) (w : world) :
  let w' := snd (inclusion_tag X name f args kw w) in
  cache w' = cache w
  /\ heap w' = heap w
  /\ jingo_context w' = jingo_context w
  /\ (helpers_loaded w = true -> helpers_loaded w' = true)
  /\ exists evs, trace w' = trace w ++ ECall args kw :: evs.
Proof.
  intros w'. subst w'.
  destruct (inclusion_tag_logs X name f args kw w) as (b & evs & -> & Hb).
  repeat split; [exact Hb | now exists evs].
Qed.

Lemma inclusion_tag_frame_witness :
  helpers_loaded
    (snd (inclusion_tag Demo.site "tag.html" Demo.demo_tag [PInt 1] []
            (with_loaded true initial_world))) = true.
Proof.
  apply (inclusion_tag_frame Demo.site "tag.html" Demo.demo_tag [PInt 1] []
           (with_loaded true initial_world)).
  reflexivity.
Defined.

(** X2. The plain inclusion tag does not memoize: after a call that
    returned, an identical call executes the function again, looks the
    template up again (without a new discovery) and renders again, and
    returns the same markup. *)
Theorem inclusion_tag_renders_again (X : externals) (name : string)
    (f : list value -> kwdict -> result context_arg)
    (args : list value) (kw : kwdict) (w w1 : world) (m : markup) :
  inclusion_tag X name f args kw w = (Ok m, w1) ->
  exists context tpl,
    f args kw = Ok context
    /\ renders (trace w1) = renders (trace w) ++ [ERender tpl (flatten context)]
    /\ inclusion_tag X name f args kw w1
       = (Ok m, logs w1 ([ECall args kw; EGetTemplate name]
                         ++ (if TEMPLATE_DEBUG X then [ESignal tpl] else [])
                         ++ [ERender tpl (flatten context)])).
Proof.
  rewrite inclusion_tag_cases.
  destruct (f args kw) as [context | e] eqn:Hf; [| discriminate].
  destruct (env_get_template X name (logs w [ECall args kw]))
    as [[tpl | e] w0] eqn:Htpl; [| discriminate].
  destruct (jinja_render X tpl (flatten context)) as [t | e] eqn:Hr;
    [| discriminate].
  cbv zeta. intros [= <- <-].
  destruct (cached_miss_trace X name args kw w w0 (Ok tpl) tpl context Htpl)
    as (_ & _ & _ & Hrenders).
  destruct (env_get_template_logs X name (logs w [ECall args kw]))
    as (evs & Hw0 & _).
  rewrite Htpl in Hw0. simpl in Hw0.
  exists context, tpl. split; [reflexivity |]. split; [exact Hrenders |].
  rewrite inclusion_tag_cases, Hf.
  rewrite env_get_template_loaded by (subst w0; reflexivity).
  rewrite (env_get_template_ok X name _ _ _ Htpl), Hr. cbv zeta.
  f_equal. unfold logs, with_trace. simpl. now rewrite <- !app_assoc.
Qed.

Lemma inclusion_tag_renders_again_witness :
  let tag := inclusion_tag Demo.site "tag.html" Demo.demo_tag [PInt 1] [] in
  fst (tag (snd (tag initial_world))) = Ok (Markup "tag.html:1")
  /\ length (renders (trace (snd (tag (snd (tag initial_world)))))) = 2%nat.
Proof.
  intros tag.
  destruct (inclusion_tag_renders_again Demo.site "tag.html" Demo.demo_tag
              [PInt 1] [] initial_world (snd (tag initial_world))
              (Markup "tag.html:1"))
    as (context & tpl & _ & _ & Hagain); [vm_compute; reflexivity |].
  fold tag in Hagain. split; [now rewrite Hagain |].
  vm_compute. reflexivity.
Defined.

(** X3. On a cache miss the cached wrapper is the plain wrapper followed
    by the store: it ends as [inclusion_tag] ends, with the rendered text
    added to the cache when the call returned and with no change at all when
    it raised. *)
Theorem cached_miss_is_inclusion_tag (X : externals) (name key : string)
    (kwargs : bool) (f : list value -> kwdict -> result context_arg)
    (args : list value) (kw : kwdict) (w : world) :
  cache w !! cache_key key kwargs args kw = None ->
  cached_inclusion_tag X name key kwargs f args kw w =
  match inclusion_tag X name f args kw w with
  | (Ok (Markup t), w') =>
      (Ok (Markup t),
       with_cache (<[cache_key key kwargs args kw := t]> (cache w')) w')
  | (Raise e, w') => (Raise e, w')
  end.
Proof. apply cached_miss_plain. Qed.

Lemma cached_miss_is_inclusion_tag_witness :
  cache (snd (cached_inclusion_tag Demo.site "tag.html" "k" true Demo.demo_tag
                [PInt 1] [] initial_world))
  = <[cache_key "k" true [PInt 1] [] := "tag.html:1"]>
      (cache (snd (inclusion_tag Demo.site "tag.html" Demo.demo_tag
                     [PInt 1] [] initial_world))).
Proof.
  rewrite (cached_miss_is_inclusion_tag Demo.site "tag.html" "k" true
             Demo.demo_tag [PInt 1] [] initial_world) by reflexivity.
  reflexivity.
Defined.

(** X4. A call of the cached wrapper that raises stores nothing: the
    cache is as before, and still has no entry for the key of the call. *)
Theorem failed_call_caches_nothing (X : externals) (name key : string)
    (kwargs : bool) (f : list value -> kwdict -> result context_arg)
    (args : list value) (kw : kwdict) (w w1 : world) (e : exn) :
  cached_inclusion_tag X name key kwargs f args kw w = (Raise e, w1) ->
  cache w1 = cache w
  /\ cache w1 !! cache_key key kwargs args kw = None.
Proof.
  intros Hrun.
  destruct (cache w !! cache_key key kwargs args kw) as [t |] eqn:Hc.
  - rewrite (cached_hit X name key kwargs f args kw w t Hc) in Hrun.
    discriminate.
  - rewrite (cached_miss_plain X name key kwargs f args kw w Hc) in Hrun.
    assert (Hcache := inclusion_tag_cache X name f args kw w).
    destruct (inclusion_tag X name f args kw w) as [[[t] | e'] w'];
      [discriminate |].
    injection Hrun as _ <-. cbn [snd] in Hcache.
    split; [exact Hcache | now rewrite Hcache].
Qed.

Lemma failed_call_caches_nothing_witness :
  cache (snd (cached_inclusion_tag Demo.site "missing.html" "k" true Demo.demo_tag
                [PInt 1] [] initial_world)) = ∅.
Proof.
  apply (failed_call_caches_nothing Demo.site "missing.html" "k" true
           Demo.demo_tag [PInt 1] [] initial_world _ TemplateNotFound).
  vm_compute. reflexivity.
Defined.

(** X5. With [kwargs=False] the arguments play no part in the key: after
    a call that returned, every call of the tag, with any function and any
    arguments, returns the text of that first call. *)
Theorem no_kwargs_shares_entry (X : externals) (name key : string)
    (f f' : list value -> kwdict -> result context_arg)
    (args args' : list value) (kw kw' : kwdict) (w w1 : world) (m : markup) :
  cached_inclusion_tag X name key false f args kw w = (Ok m, w1) ->
  cache_key key false args' kw' = key
  /\ cached_inclusion_tag X name key false f' args' kw' w1 = (Ok m, w1).
Proof.
  intros Hrun. split; [reflexivity |].
  now apply (cached_repeat X name key false f f' args args' kw kw' w w1 m).
Qed.

Lemma no_kwargs_shares_entry_witness :
  let tag := cached_inclusion_tag Demo.site "tag.html" "k" false Demo.demo_tag in
  fst (tag [PInt 2] [] (snd (tag [PInt 1] [] initial_world)))
  = Ok (Markup "tag.html:1").
Proof.
  intros tag.
  destruct (no_kwargs_shares_entry Demo.site "tag.html" "k" Demo.demo_tag
              Demo.demo_tag [PInt 1] [PInt 2] [] [] initial_world
              (snd (tag [PInt 1] [] initial_world)) (Markup "tag.html:1"))
    as (_ & Hagain); [vm_compute; reflexivity |].
  fold tag in Hagain. now rewrite Hagain.
Defined.

(** X6. The cached wrapper writes to no cache entry but the one of its
    key, whatever the outcome of the call. *)
Theorem cached_inclusion_tag_other_keys (X : externals) (name key : string)
    (kwargs : bool) (f : list value -> kwdict -> result context_arg)
    (args : list value) (kw : kwdict) (w : world) (k : string) :
  k <> cache_key key kwargs args kw ->
  cache (snd (cached_inclusion_tag X name key kwargs f args kw w)) !! k
  = cache w !! k.
Proof.
  intros Hk.
  destruct (cache w !! cache_key key kwargs args kw) as [t |] eqn:Hc.
  - now rewrite (cached_hit X name key kwargs f args kw w t Hc).
  - rewrite (cached_miss_plain X name key kwargs f args kw w Hc).
    assert (Hcache := inclusion_tag_cache X name f args kw w).
    destruct (inclusion_tag X name f args kw w) as [[[t] | e'] w'];
      cbn [snd] in *; [| now rewrite Hcache].
    unfold with_cache. cbn [cache].
    rewrite lookup_insert_ne by congruence. now rewrite Hcache.
Qed.

Lemma cached_inclusion_tag_other_keys_witness :
  cache (snd (cached_inclusion_tag Demo.site "tag.html" "k" true Demo.demo_tag
                [PInt 1] [] (with_cache {[ "other" := "text" ]} initial_world)))
    !! "other" = Some "text".
Proof.
  rewrite (cached_inclusion_tag_other_keys Demo.site "tag.html" "k" true
             Demo.demo_tag [PInt 1] [] _ "other").
  - reflexivity.
  - vm_compute. discriminate.
Defined.

End Tags.

(* ===================================================================== *)
(** ** The shape of the cache key; the registration tables *)
(* ===================================================================== *)

Module KeyShape.
Import Py Jingo Facts.

Lemma string_length_app (s1 s2 : string) :
  String.length (s1 +:+ s2) = (String.length s1 + String.length s2)%nat.
Proof.
  induction s1 as [| c s1 IH]; [reflexivity |].
  change (S (String.length (s1 +:+ s2)) = S (String.length s1 + String.length s2)).
  now rewrite IH.
Qed.

Lemma prefix_app (s1 s2 : string) : String.prefix s1 (s1 +:+ s2) = true.
Proof.
  induction s1 as [| c s1 IH]; [destruct s2; reflexivity |].
  change (String.prefix (String c s1) (String c (s1 +:+ s2)) = true).
  cbn [String.prefix]. destruct (ascii_dec c c); [exact IH | congruence].
Qed.

Lemma prefix_refl (s : string) : String.prefix s s = true.
Proof.
  induction s as [| c s IH]; [reflexivity |].
  cbn [String.prefix]. destruct (ascii_dec c c); [exact IH | congruence].
Qed.

Lemma le_bytes_length (k : nat) (n : Z) : length (MD5.le_bytes k n) = k.
Proof. revert n. induction k as [| k IH]; intros n; simpl; [| rewrite IH]; reflexivity. Qed.

Lemma hex_length (bs : list Z) :
  String.length (MD5.hex bs) = (2 * length bs)%nat.
Proof. induction bs as [| b bs IH]; simpl; [reflexivity | rewrite IH; lia]. Qed.

(** A hex digest has 32 characters, whatever was hashed. *)
Lemma hexdigest_length (s : string) : String.length (MD5.hexdigest s) = 32%nat.
Proof.
  unfold MD5.hexdigest, MD5.digest. cbv zeta.
  rewrite hex_length, !length_app, !le_bytes_length. reflexivity.
Qed.

(** X7. The cache key always starts with [key]; it is [key] alone when
    the arguments are not used and [key] followed by 33 characters (an
    underscore and the digest) when they are, however many and however long
    the arguments. *)
Theorem cache_key_length (key : string) (kwargs : bool)
    (args : list value) (kw : kwdict) :
  String.prefix key (cache_key key kwargs args kw) = true
  /\ String.length (cache_key key kwargs args kw)
     = (String.length key
        + if kwargs && (0 <? length args + length kw)%nat then 33 else 0)%nat.
Proof.
  unfold cache_key.
  assert (Huse : negb (bool_decide (args = [])) || negb (bool_decide (kw = []))
                 = (0 <? length args + length kw)%nat).
  { destruct args, kw; reflexivity. }
  rewrite Huse.
  destruct (kwargs && (0 <? length args + length kw)%nat).
  - split; [apply prefix_app |].
    rewrite !string_length_app, hexdigest_length. reflexivity.
  - split; [apply prefix_refl | lia].
Qed.

End KeyShape.

Module TablesFacts.
Import Py Jingo Registration Facts.

(** X8. [Register.function] returns the function it is given and
    registers it as a global under its own name: that name now leads to the
    function, every other global and all filters are as before.
    [Register.filter] does the same on the filters, leaving the globals. *)
Theorem register_lookup (f : pyfunc) (env : tables) :
  (fst (Register_function f env) = f
   /\ globals (snd (Register_function f env)) !! name__ f = Some f
   /\ (forall n, n <> name__ f ->
         globals (snd (Register_function f env)) !! n = globals env !! n)
   /\ filters (snd (Register_function f env)) = filters env)
  /\ (fst (Register_filter f env) = f
      /\ filters (snd (Register_filter f env)) !! name__ f = Some f
      /\ (forall n, n <> name__ f ->
            filters (snd (Register_filter f env)) !! n = filters env !! n)
      /\ globals (snd (Register_filter f env)) = globals env).
Proof.
  unfold Register_function, Register_filter. cbn [fst snd globals filters].
  repeat split; try apply lookup_insert_eq;
    intros n Hn; now apply lookup_insert_ne.
Qed.

Lemma register_lookup_witness :
  let f := PyFunc "url" (fun _ _ => ret (RValue (PStr "/"))) in
  let g := PyFunc "static" (fun _ _ => ret (RValue (PStr "/static"))) in
  call <$> (globals (snd (Register_function f (Tables ∅ {[ "static" := g ]})))
            !! "static")
  = Some (call g).
Proof.
  intros f g.
  rewrite (proj1 (proj2 (proj2 (proj1
             (register_lookup f (Tables ∅ {[ "static" := g ]})))))).
  - reflexivity.
  - discriminate.
Defined.

(** X9. Names are not checked for clashes: registering a function under
    a name that is taken replaces the earlier one, so after [f] then [g] of
    the same name the tables are as if [g] alone had been registered. Both
    inclusion-tag decorators register a global named like the decorated
    function, and so replace each other in the same way. *)
Theorem register_same_name_replaces (f g : pyfunc) (env : tables) :
  name__ g = name__ f ->
  snd (Register_function g (snd (Register_function f env)))
  = snd (Register_function g env)
  /\ snd (Register_filter g (snd (Register_filter f env)))
     = snd (Register_filter g env)
  /\ (forall X template template' key kwargs tag tag',
        snd (cached_inclusion_tag_decorator X template' key kwargs (name__ f) tag'
               (snd (inclusion_tag_decorator X template (name__ f) tag env)))
        = snd (cached_inclusion_tag_decorator X template' key kwargs (name__ f) tag' env)
        /\ globals (snd (cached_inclusion_tag_decorator X template' key kwargs
                           (name__ f) tag' env)) !! name__ f
           = Some (wraps (name__ f) (cached_inclusion_tag X template' key kwargs tag'))).
Proof.
  intros Hname.
  unfold cached_inclusion_tag_decorator, inclusion_tag_decorator,
    Register_function, Register_filter.
  cbn [fst snd globals filters name__ wraps]. rewrite Hname.
  split; [| split; [| intros; split]];
    rewrite ?insert_insert_eq; try reflexivity.
  apply lookup_insert_eq.
Qed.

Lemma register_same_name_replaces_witness :
  let f := PyFunc "url" (fun _ _ => ret (RValue (PStr "first"))) in
  let g := PyFunc "url" (fun _ _ => ret (RValue (PStr "second"))) in
  call <$> (globals (snd (Register_function g
                            (snd (Register_function f (Tables ∅ ∅)))))
            !! "url")
  = Some (call g).
Proof.
  intros f g.
  rewrite (proj1 (register_same_name_replaces f g (Tables ∅ ∅) eq_refl)).
  reflexivity.
Defined.

End TablesFacts.

(* ===================================================================== *)
(** ** Discovery and import failures *)
(* ===================================================================== *)

Module Discovery.
Import Py Jingo Registration Facts LoaderFacts.

Ltac steps :=
  cbv beta iota zeta delta
    [load_app try_except bind import get_path imp_find_module log lift ret raise].

(** X10. A discovery that raises is not retried. The call that raised
    was the first one, it leaves the flag set, later calls of
    [load_helpers] do nothing, so the applications after the failing one
    never get their helpers imported, and template lookups go straight to
    the engine. The failure itself surfaces from whichever of
    [get_template] and [from_string] triggered the discovery, before the
    engine is asked. *)
Theorem discovery_failure_not_retried (X : externals) (w w1 : world) (e : exn) :
  load_helpers X w = (Raise e, w1) ->
  helpers_loaded w = false
  /\ helpers_loaded w1 = true
  /\ (forall n, invoke_n X n w1 = w1)
  /\ (forall name,
        env_get_template X name w = (Raise e, w1)
        /\ env_get_template X name w1
           = (jinja_get_template X name, logs w1 [EGetTemplate name]))
  /\ (forall jinja_from_string source,
        env_from_string X jinja_from_string source w = (Raise e, w1)
        /\ env_from_string X jinja_from_string source w1
           = (jinja_from_string source, w1)).
Proof.
  intros Hrun.
  assert (Hl : helpers_loaded w = false).
  { destruct (helpers_loaded w) eqn:Hl; [| reflexivity].
    rewrite load_helpers_loaded in Hrun by assumption. discriminate. }
  assert (Hl1 : helpers_loaded w1 = true).
  { rewrite <- (load_helpers_sets_flag X w). now rewrite Hrun. }
  split; [exact Hl |]. split; [exact Hl1 |].
  split; [intros n; now apply invoke_n_loaded |].
  split; intros.
  - unfold env_get_template, bind, log, lift. rewrite Hrun.
    rewrite load_helpers_loaded by assumption. now split.
  - unfold env_from_string, bind, lift. rewrite Hrun.
    rewrite load_helpers_loaded by assumption. now split.
Qed.

Lemma discovery_failure_not_retried_witness :
  let w1 := snd (load_helpers Demo.broken_site initial_world) in
  trace (invoke_n Demo.broken_site 2 w1)
  = [ EImport "jingo.helpers" true; EImport "blog" true;
      EImport "forum" true; EFindModule "helpers" ["/srv/forum"];
      EImport "forum.helpers" true ].
Proof.
  intros w1.
  rewrite (proj1 (proj2 (proj2 (discovery_failure_not_retried Demo.broken_site
             initial_world w1 (Exception "boom") ltac:(vm_compute; reflexivity))))).
  vm_compute. reflexivity.
Defined.

(** X11. Errors while importing an application itself. An
    [AttributeError] raised by the import is taken for a missing
    [__path__]: the application is skipped and the loop goes on. Any other
    exception of the import, [ImportError] for an application that is not
    installed included, stops the loop and is raised; so is any exception
    of the search for [helpers] other than [ImportError]. *)
Theorem load_app_import_errors (X : externals) :
  (forall (app : string) (rest : list string) (w : world),
      import_module X app = Raise AttributeError ->
      for_each (app :: rest) (load_app X) w
      = for_each rest (load_app X) (logs w [EImport app (helpers_loaded w)]))
  /\ (forall (app : string) (rest : list string) (w : world) (e : exn),
      import_module X app = Raise e ->
      e <> AttributeError ->
      for_each (app :: rest) (load_app X) w
      = (Raise e, logs w [EImport app (helpers_loaded w)]))
  /\ (forall (app : string) (m : pymodule) (p : list string)
             (rest : list string) (w : world) (e : exn),
      import_module X app = Ok m ->
      path__ m = Some p ->
      find_module X "helpers" p = Raise e ->
      e <> ImportError ->
      for_each (app :: rest) (load_app X) w
      = (Raise e, logs w [EImport app (helpers_loaded w);
                          EFindModule "helpers" p])).
Proof.
  split; [| split].
  - intros app rest w Hm. cbn [for_each]. steps. rewrite Hm. steps.
    rewrite decide_True by reflexivity. reflexivity.
  - intros app rest w e Hm He. cbn [for_each]. steps. rewrite Hm. steps.
    rewrite decide_False by assumption. reflexivity.
  - intros app m p rest w e Hm Hp Hfind He. cbn [for_each].
    steps. rewrite Hm. steps. rewrite Hp. steps. rewrite Hfind. steps.
    rewrite decide_False by assumption. f_equal. same_world.
Qed.

(** [nosuch] is not installed on the demonstration site. *)
Lemma load_app_import_errors_witness :
  fst (for_each ["nosuch"; "wiki"] (load_app Demo.site) initial_world)
  = Raise ImportError.
Proof.
  rewrite (proj1 (proj2 (load_app_import_errors Demo.site))
             "nosuch" ["wiki"] initial_world ImportError).
  - reflexivity.
  - reflexivity.
  - discriminate.
Defined.

End Discovery.

(* ===================================================================== *)
(** ** Rendering end to end; the resolver's dicts and requests *)
(* ===================================================================== *)

Module Rendering.
Import Py Jingo Registration Facts LoaderFacts Resolver.

Section Resolution.
Variable X : externals.

Lemma renders_processor_calls (ps : list (request -> result dict)) (r : request) :
  forall i, renders (processor_calls i ps r) = [].
Proof. induction ps as [| p ps IH]; intros i; [reflexivity | apply IH]. Qed.

(** The resolver's result, from the processor output of the request. *)
Lemma get_context_result (r : request) (context : option loc) b h j c t (P : dict) :
  processor_output X r (World b h j c t) P ->
  (forall c0, context = Some c0 -> is_Some (h !! c0)) ->
  exists l h' j' evs,
    get_context X r context (World b h j c t)
    = (Ok l, World b h' j' c (t ++ evs))
    /\ h' !! l = Some (update (explicit context h) P)
    /\ renders evs = [].
Proof.
  unfold processor_output. cbn [jingo_context heap]. intros HP Hctx.
  destruct (j !! r) as [lj |] eqn:Hj.
  - rewrite (get_context_memo X r context b h j c t lj P Hj HP).
    eexists _, _, _, []. rewrite app_nil_r. split; [reflexivity |].
    split; [apply lookup_insert_eq | reflexivity].
  - destruct HP as (ds & Hds & ->).
    rewrite (get_context_first X r context b h j c t ds Hj Hds).
    set (P := fold_left update ds ∅).
    assert (HE : explicit context (<[fresh (dom h) := P]> h) = explicit context h).
    { destruct context as [c0 |]; [| reflexivity]. simpl.
      rewrite lookup_insert_fresh; auto. }
    eexists _, _, _, (processor_calls 0 (get_standard_processors X) r).
    split; [reflexivity |]. rewrite HE.
    split; [apply lookup_insert_eq | apply renders_processor_calls].
Qed.

(** The requests' mappings after a resolution: as before, or with the
    new mapping of the request resolved. *)
Lemma get_context_requests (r : request) (context : option loc) b h j c t :
  exists j',
    jingo_context (snd (get_context X r context (World b h j c t))) = j'
    /\ (j' = j \/ (j !! r = None /\ j' = <[r := fresh (dom h)]> j)).
Proof.
  rewrite get_context_unfold.
  unfold bind at 1. unfold hasattr_jingo_context. cbn [jingo_context].
  destruct (j !! r) as [lj |] eqn:Hj.
  - rewrite bool_decide_eq_true_2 by eauto.
    unfold bind at 1. cbv beta iota delta [negb ret].
    destruct (merge_context_heap r context b h j c t lj Hj) as [d ->].
    exists j. split; [reflexivity | now left].
  - rewrite bool_decide_eq_false_2 by (intros [? ?]; discriminate).
    unfold bind at 1. cbv beta iota delta [negb].
    unfold bind at 1. unfold new_dict at 1. unfold bind at 1.
    unfold set_jingo_context at 1. run.
    assert (Hl0 : <[r := fresh (dom h)]> j !! r = Some (fresh (dom h)))
      by apply lookup_insert_eq.
    destruct (run_processors_frame (get_standard_processors X) 0 r b
                (<[fresh (dom h) := ∅]> h) (<[r := fresh (dom h)]> j) c t
                (fresh (dom h)) Hl0) as (f & k & Hw).
    destruct (run_processors 0 (get_standard_processors X) r _)
      as [[[] | e] w1]; simpl in Hw; subst w1.
    + destruct (merge_context_heap r context b
                  (alter f (fresh (dom h)) (<[fresh (dom h) := ∅]> h))
                  (<[r := fresh (dom h)]> j) c
                  (t ++ processor_calls 0 (take k (get_standard_processors X)) r)
                  (fresh (dom h)) Hl0) as [d ->].
      eexists. split; [reflexivity | right; now split].
    + eexists. split; [reflexivity | right; now split].
Qed.

(** The loop stops at the first processor that raises; the outputs of
    the ones before it are already merged in. *)
Lemma run_processors_raise (ps1 ps2 : list (request -> result dict))
    (p : request -> result dict) (ds1 : list dict) (e : exn) :
  forall (i : nat) (r : request) b h j c t (lj : loc),
    j !! r = Some lj ->
    Forall2 (fun p0 d => p0 r = Ok d) ps1 ds1 ->
    p r = Raise e ->
    run_processors i (ps1 ++ p :: ps2) r (World b h j c t)
    = (Raise e, World b (alter (fold_left update ds1) lj h) j c
                      (t ++ processor_calls i (ps1 ++ [p]) r)).
Proof.
  intros i r b h j c t lj Hj Hps Hp. revert i h t.
  induction Hps as [| p0 d ps1 ds1 Hp0 _ IH]; intros i h t.
  - simpl. unfold bind, get_jingo_context, call_processor, log, lift, with_trace.
    simpl. rewrite Hj, Hp. simpl. do 2 f_equal. symmetry. now apply alter_id.
  - simpl. unfold bind, get_jingo_context, call_processor, dict_update,
      log, lift, with_trace, with_heap. simpl. rewrite Hj, Hp0. simpl.
    rewrite IH. rewrite <- app_assoc. simpl. now rewrite alter_alter_eq.
Qed.

(** What a resolution that returns has done to the heap. *)
Lemma get_context_ok_shape (r : request) (context : option loc)
    b h j c t (l : loc) (w' : world) :
  (forall lj, j !! r = Some lj -> is_Some (h !! lj)) ->
  get_context X r context (World b h j c t) = (Ok l, w') ->
  exists h1 d lj,
    l = fresh (dom h1)
    /\ heap w' = <[l := d]> h1
    /\ (forall l0, is_Some (h !! l0) -> is_Some (h1 !! l0))
    /\ jingo_context w' !! r = Some lj
    /\ is_Some (h1 !! lj).
Proof.
  intros Hwf. rewrite get_context_unfold.
  unfold bind at 1. unfold hasattr_jingo_context. cbn [jingo_context].
  destruct (j !! r) as [lj |] eqn:Hj.
  - rewrite bool_decide_eq_true_2 by eauto.
    unfold bind at 1. cbv beta iota delta [negb ret].
    destruct (merge_context_heap r context b h j c t lj Hj) as [d ->].
    intros [= <- <-]. exists h, d, lj. cbn [heap jingo_context].
    repeat split; auto.
  - rewrite bool_decide_eq_false_2 by (intros [? ?]; discriminate).
    unfold bind at 1. cbv beta iota delta [negb].
    unfold bind at 1. unfold new_dict at 1. unfold bind at 1.
    unfold set_jingo_context at 1. run.
    assert (Hl0 : <[r := fresh (dom h)]> j !! r = Some (fresh (dom h)))
      by apply lookup_insert_eq.
    destruct (run_processors_frame (get_standard_processors X) 0 r b
                (<[fresh (dom h) := ∅]> h) (<[r := fresh (dom h)]> j) c t
                (fresh (dom h)) Hl0) as (f & k & Hw).
    rewrite alter_insert_eq in Hw.
    destruct (run_processors 0 (get_standard_processors X) r _)
      as [[[] | e] w1]; simpl in Hw; subst w1; [| discriminate].
    destruct (merge_context_heap r context b (<[fresh (dom h) := f ∅]> h)
                (<[r := fresh (dom h)]> j) c
                (t ++ processor_calls 0 (take k (get_standard_processors X)) r)
                (fresh (dom h)) Hl0) as [d ->].
    intros [= <- <-]. exists (<[fresh (dom h) := f ∅]> h), d, (fresh (dom h)).
    cbn [heap jingo_context].
    split; [reflexivity |]. split; [reflexivity |]. split; [| split].
    + intros l0 Hl. now rewrite lookup_insert_fresh.
    + exact Hl0.
    + rewrite lookup_insert_eq. eauto.
Qed.

End Resolution.

(** X12. The template is looked up before the context is resolved: when
    the lookup by name raises (the template is missing, or discovery
    failed), [render_to_string] raises the same, no context processor has
    been called, no dict has been created or changed and no request has
    received a mapping. *)
Theorem missing_template_runs_no_processor (X : externals) (r : request)
    (name : string) (context : option loc) (w w1 : world) (e : exn) :
  env_get_template X name w = (Raise e, w1) ->
  render_to_string X r (ByName name) context w = (Raise e, w1)
  /\ heap w1 = heap w
  /\ jingo_context w1 = jingo_context w
  /\ exists evs, trace w1 = trace w ++ evs /\ Forall (sees true) evs.
Proof.
  intros Htpl. unfold render_to_string. unfold bind at 1. rewrite Htpl.
  destruct (env_get_template_logs X name w) as (evs & Hw & Hs).
  rewrite Htpl in Hw. simpl in Hw. subst w1.
  repeat split. now exists evs.
Qed.

Lemma missing_template_runs_no_processor_witness :
  jingo_context (snd (render_to_string Demo.site 7%nat (ByName "missing.html")
                        None initial_world)) = ∅.
Proof.
  destruct (missing_template_runs_no_processor Demo.site 7%nat "missing.html" None
              initial_world
              (snd (env_get_template Demo.site "missing.html" initial_world))
              TemplateNotFound) as (Hrun & _ & Hj & _);
    [vm_compute; reflexivity |].
  rewrite Hrun. exact Hj.
Defined.

(** X13. End to end: given a template object, [render_to_string] returns
    what the engine makes of the explicit context overwritten by the
    processor output of the request, renders once, and [render] wraps that
    very text, with the keywords it was given, into the response; when the
    engine raises, both raise the same. *)
Theorem render_uses_merged_context (X : externals) (r : request) (t : template)
    (context : option loc) (kwargs : kwdict) (w : world) (P : dict) :
  processor_output X r w P ->
  (forall c, context = Some c -> is_Some (heap w !! c)) ->
  let vars := update (explicit context (heap w)) P in
  fst (render_to_string X r (ByTemplate t) context w) = jinja_render X t vars
  /\ renders (trace (snd (render_to_string X r (ByTemplate t) context w)))
     = renders (trace w) ++ [ERender t vars]
  /\ render X r (ByTemplate t) context kwargs w
     = match render_to_string X r (ByTemplate t) context w with
       | (Ok rendered, w') => (Ok (MkHttpResponse rendered kwargs), w')
       | (Raise e, w') => (Raise e, w')
       end.
Proof.
  destruct w as [b h j c tr]. cbn [heap trace]. intros HP Hctx.
  set (vars := update (explicit context h) P).
  destruct (get_context_result X r context b h j c tr P HP Hctx)
    as (l & h' & j' & evs & Hrun & Hl & Hevs).
  assert (Hrts : render_to_string X r (ByTemplate t) context (World b h j c tr)
                 = (jinja_render X t vars,
                    logs (World b h' j' c (tr ++ evs))
                      ((if TEMPLATE_DEBUG X then [ESignal t] else [])
                       ++ [ERender t vars]))).
  { unfold render_to_string. unfold bind at 1. unfold ret at 1.
    unfold bind at 1. rewrite Hrun. unfold bind at 1. unfold read_dict, deref.
    cbn [heap]. rewrite Hl. cbn [default].
    rewrite Template_render_run. unfold flatten. now rewrite update_empty. }
  split; [now rewrite Hrts |]. split.
  - rewrite Hrts. cbn [snd]. unfold logs, with_trace. cbn [trace].
    unfold renders. rewrite !List.filter_app. fold (renders evs).
    rewrite Hevs, app_nil_r. f_equal.
    now destruct (TEMPLATE_DEBUG X).
  - unfold render, bind, ret.
    now destruct (render_to_string X r (ByTemplate t) context (World b h j c tr))
      as [[rendered | e] w'].
Qed.

(** The specification's example through [render]: ["x"] is 2. *)
Lemma render_uses_merged_context_witness :
  fst (render Demo.site 7%nat (ByTemplate (Tpl "page.html")) (Some 1%positive)
         [("status", PInt 209)] Demo.caller_world)
  = Ok (MkHttpResponse "page.html:2" [("status", PInt 209)]).
Proof.
  destruct (render_uses_merged_context Demo.site 7%nat (Tpl "page.html")
              (Some 1%positive) [("status", PInt 209)] Demo.caller_world
              (<[ "x" := PInt 2 ]> {[ "y" := PInt 3 ]}))
    as (Hfst & _ & Hrender).
  - exists [ <[ "x" := PInt 0 ]> {[ "y" := PInt 3 ]}; {[ "x" := PInt 2 ]} ].
    split; [repeat constructor | vm_compute; reflexivity].
  - intros c Hc. injection Hc as <-. vm_compute. eauto.
  - rewrite Hrender.
    destruct (render_to_string Demo.site 7%nat (ByTemplate (Tpl "page.html"))
                (Some 1%positive) Demo.caller_world) as [[rendered | e] w'];
      cbn [fst] in *.
    + f_equal. f_equal. injection Hfst as ->. vm_compute. reflexivity.
    + discriminate Hfst.
Defined.

(** X14. The resolver hands out a new dict on every call: the dict it
    returns did not exist before, is not the mapping kept on the request,
    and is not returned again by a later resolution; so whatever the
    rendering does to it cannot reach the request's processor output. *)
Theorem get_context_returns_new_dict (X : externals) (r : request)
    (context : option loc) (w w' : world) (l : loc) :
  (forall lj, jingo_context w !! r = Some lj -> is_Some (heap w !! lj)) ->
  get_context X r context w = (Ok l, w') ->
  heap w !! l = None
  /\ is_Some (heap w' !! l)
  /\ jingo_context w' !! r <> Some l
  /\ (forall context2 l2 w2,
        get_context X r context2 w' = (Ok l2, w2) -> l2 <> l).
Proof.
  destruct w as [b h j c t]. cbn [jingo_context heap]. intros Hwf Hrun.
  destruct (get_context_ok_shape X r context b h j c t l w' Hwf Hrun)
    as (h1 & d & lj & Hl & Hh' & Hsub & Hj' & Hlj).
  assert (Hnew : h !! l = None).
  { destruct (h !! l) eqn:Hhl; [| reflexivity]. exfalso.
    apply (allocated_not_fresh h1 l); [| exact Hl].
    apply Hsub. rewrite Hhl. eauto. }
  assert (Hl' : is_Some (heap w' !! l)).
  { rewrite Hh', lookup_insert_eq. eauto. }
  assert (Hne : lj <> l) by (rewrite Hl; now apply allocated_not_fresh).
  split; [exact Hnew |]. split; [exact Hl' |]. split; [congruence |].
  intros context2 l2 w2 Hrun2 ->.
  destruct w' as [b' h' j' c' t']. cbn [heap jingo_context] in *.
  destruct (get_context_ok_shape X r context2 b' h' j' c' t' l w2) as
    (h2 & d2 & lj2 & Hl2 & _ & Hsub2 & _); [| exact Hrun2 |].
  - intros lj0 Hlj0. assert (lj0 = lj) by congruence. subst lj0.
    rewrite Hh', lookup_insert_ne by congruence. exact Hlj.
  - apply (allocated_not_fresh h2 l); [| exact Hl2]. now apply Hsub2.
Qed.

Lemma get_context_returns_new_dict_witness :
  fst (get_context Demo.site 7%nat (Some 1%positive) Demo.caller_world)
  <> Ok 1%positive.
Proof.
  destruct (get_context Demo.site 7%nat (Some 1%positive) Demo.caller_world)
    as [[l | e] w'] eqn:Hrun; [| discriminate].
  destruct (get_context_returns_new_dict Demo.site 7%nat (Some 1%positive)
              Demo.caller_world w' l) as (Hnew & _).
  - intros lj Hlj. vm_compute in Hlj. discriminate.
  - exact Hrun.
  - cbn [fst]. intros [= ->]. vm_compute in Hnew. discriminate.
Defined.

(** X15. A processor that raises during the first resolution leaves the
    request with a partial mapping: the exception is raised, the processors
    after it are not called, and since the request now has its mapping, every
    later resolution returns normally with the outputs of the processors
    before the failing one only, calling nothing. *)
Theorem processor_failure_leaves_partial_mapping (X : externals) (r : request)
    (context : option loc) (w : world)
    (ps1 ps2 : list (request -> result dict)) (p : request -> result dict)
    (ds1 : list dict) (e : exn) :
  jingo_context w !! r = None ->
  get_standard_processors X = ps1 ++ p :: ps2 ->
  Forall2 (fun p0 d => p0 r = Ok d) ps1 ds1 ->
  p r = Raise e ->
  exists w1,
    get_context X r context w = (Raise e, w1)
    /\ trace w1 = trace w ++ processor_calls 0 (ps1 ++ [p]) r
    /\ (exists lj, jingo_context w1 !! r = Some lj
                   /\ heap w1 !! lj = Some (fold_left update ds1 ∅))
    /\ forall context',
         exists l w2,
           get_context X r context' w1 = (Ok l, w2)
           /\ trace w2 = trace w1
           /\ heap w2 !! l
              = Some (update (explicit context' (heap w1))
                        (fold_left update ds1 ∅)).
Proof.
  destruct w as [b h j c t]. cbn [jingo_context trace].
  intros Hj Hps Hds1 Hp.
  assert (Hrun : get_context X r context (World b h j c t)
                 = (Raise e,
                    World b (<[fresh (dom h) := fold_left update ds1 ∅]> h)
                      (<[r := fresh (dom h)]> j) c
                      (t ++ processor_calls 0 (ps1 ++ [p]) r))).
  { rewrite get_context_unfold.
    unfold bind at 1. unfold hasattr_jingo_context. cbn [jingo_context].
    rewrite bool_decide_eq_false_2 by (rewrite Hj; intros [? ?]; discriminate).
    unfold bind at 1. cbv beta iota delta [negb].
    unfold bind at 1. unfold new_dict at 1. unfold bind at 1.
    unfold set_jingo_context at 1. run. rewrite Hps.
    rewrite (run_processors_raise ps1 ps2 p ds1 e 0 r b _ _ c t (fresh (dom h)))
      by (apply lookup_insert_eq || assumption).
    now rewrite alter_insert_eq. }
  eexists. split; [exact Hrun |]. cbn [trace jingo_context heap].
  split; [reflexivity |]. split.
  - exists (fresh (dom h)). split; apply lookup_insert_eq.
  - intros context'.
    rewrite (get_context_memo X r context' b _ _ c _ (fresh (dom h))
               (fold_left update ds1 ∅)) by apply lookup_insert_eq.
    eexists _, _. split; [reflexivity |]. cbn [trace heap].
    split; [reflexivity | apply lookup_insert_eq].
Qed.

(** Three processors, the second of which raises: the first resolution
    fails, the second one returns with the first processor's output. *)
Lemma processor_failure_leaves_partial_mapping_witness :
  let X := Externals [] false Demo.demo_import Demo.demo_find
             [ (fun _ => Ok {[ "user" := PStr "ann" ]});
               (fun _ => Raise (Exception "db down"));
               (fun _ => Ok {[ "lang" := PStr "en" ]}) ]
             Demo.demo_get_template Demo.demo_render in
  let w1 := snd (get_context X 7%nat None initial_world) in
  fst (get_context X 7%nat None initial_world) = Raise (Exception "db down")
  /\ exists l w2, get_context X 7%nat None w1 = (Ok l, w2)
                  /\ heap w2 !! l = Some {[ "user" := PStr "ann" ]}.
Proof.
  intros X w1.
  destruct (processor_failure_leaves_partial_mapping X 7%nat None initial_world
              [ (fun _ => Ok {[ "user" := PStr "ann" ]}) ]
              [ (fun _ => Ok {[ "lang" := PStr "en" ]}) ]
              (fun _ => Raise (Exception "db down"))
              [ {[ "user" := PStr "ann" ]} ] (Exception "db down"))
    as (w1' & Hrun & _ & _ & Hlater);
    [reflexivity | reflexivity | repeat constructor | reflexivity |].
  unfold w1. rewrite Hrun. cbn [fst snd]. split; [reflexivity |].
  destruct (Hlater None) as (l & w2 & Hrun2 & _ & Hl).
  exists l, w2. split; [exact Hrun2 | exact Hl].
Defined.

(** X16. Requests do not share their processor output: a resolution for
    one request, whatever its outcome, neither gives another request a
    mapping nor changes the mapping another request has. *)
Theorem requests_independent (X : externals) (r r' : request)
    (context : option loc) (w : world) :
  r' <> r ->
  let w' := snd (get_context X r context w) in
  jingo_context w' !! r' = jingo_context w !! r'
  /\ forall lj P,
       jingo_context w !! r' = Some lj ->
       heap w !! lj = Some P ->
       heap w' !! lj = Some P.
Proof.
  intros Hne w'. subst w'. split.
  - destruct w as [b h j c t]. cbn [jingo_context].
    destruct (get_context_requests X r context b h j c t)
      as (j' & -> & [-> | [_ ->]]); [reflexivity |].
    now apply lookup_insert_ne.
  - intros lj P _ HP. rewrite get_context_heap; [exact HP | eauto].
Qed.

Lemma requests_independent_witness :
  jingo_context (snd (get_context Demo.site 7%nat None initial_world)) !! 8%nat
  = None.
Proof.
  apply (requests_independent Demo.site 7%nat 8%nat None initial_world).
  discriminate.
Defined.

End Rendering.

(* ===================================================================== *)
(** ** Flattened keys; [get_env] *)
(* ===================================================================== *)

Module Flattening.
Import Py Jingo Facts.

Lemma fold_update_is_Some (ds : list dict) (acc : dict) (k : string) :
  is_Some (fold_left update ds acc !! k)
  <-> is_Some (acc !! k) \/ exists d, d ∈ ds /\ is_Some (d !! k).
Proof.
  revert acc. induction ds as [| d ds IH]; intros acc; simpl.
  - split; [auto |]. intros [H | (d & Hd & _)]; [exact H |].
    now apply elem_of_nil in Hd.
  - rewrite IH. unfold update. rewrite lookup_union_is_Some. split.
    + intros [[Hd | Hacc] | (d' & Hd' & Hk)].
      * right. exists d. split; [apply list_elem_of_here | exact Hd].
      * now left.
      * right. exists d'. split; [now apply list_elem_of_further | exact Hk].
    + intros [Hacc | (d' & Hd' & Hk)]; [now left; right |].
      apply elem_of_cons in Hd' as [-> | Hd'].
      * now left; left.
      * right. now exists d'.
Qed.

(** X17. Flattening loses no variable and invents none: a name is in
    the flattened mapping exactly when some layer of the Context has it. A
    Context without a [dicts] attribute, or without layers, gives the empty
    mapping, and one more layer on top acts as one more [update]. *)
Theorem flatten_keys (ds : list dict) (k : string) :
  (is_Some (flatten (CtxContext (Some ds)) !! k)
   <-> exists d, d ∈ ds /\ is_Some (d !! k))
  /\ flatten (CtxContext None) = ∅
  /\ flatten (CtxContext (Some [])) = ∅
  /\ forall d, flatten (CtxContext (Some (ds ++ [d])))
               = update (flatten (CtxContext (Some ds))) d.
Proof.
  split; [| split; [reflexivity | split; [reflexivity |]]].
  - simpl. rewrite fold_update_is_Some, lookup_empty. split.
    + intros [[v Hv] | H]; [discriminate | exact H].
    + intros H. now right.
  - intros d. simpl. now rewrite fold_left_app.
Qed.

Lemma flatten_keys_witness :
  is_Some (flatten (CtxContext (Some [ {[ "a" := PInt 1 ]}; {[ "b" := PInt 3 ]} ]))
           !! "b").
Proof.
  apply (proj1 (flatten_keys [ {[ "a" := PInt 1 ]}; {[ "b" := PInt 3 ]} ] "b")).
  exists {[ "b" := PInt 3 ]}. split.
  - apply list_elem_of_further, list_elem_of_here.
  - vm_compute. eauto.
Defined.

End Flattening.

Module EnvFacts.
Import Py Jingo Env.

(** X18. The loaders of the Environment: one [FileSystemLoader] for each
    directory of [TEMPLATE_DIRS], in order, followed by one
    [PackageLoader] for each application of [INSTALLED_APPS], in order; so
    template directories are searched before application packages. *)
Theorem loaders_order (s : settings) :
  loaders s = map FileSystemLoader (TEMPLATE_DIRS s)
              ++ map PackageLoader (INSTALLED_APPS s)
  /\ length (loaders s)
     = (length (TEMPLATE_DIRS s) + length (INSTALLED_APPS s))%nat
  /\ (forall i d, TEMPLATE_DIRS s !! i = Some d ->
        loaders s !! i = Some (FileSystemLoader d))
  /\ (forall i a, INSTALLED_APPS s !! i = Some a ->
        loaders s !! (length (TEMPLATE_DIRS s) + i)%nat = Some (PackageLoader a)).
Proof.
  assert (Heq : loaders s = map FileSystemLoader (TEMPLATE_DIRS s)
                            ++ map PackageLoader (INSTALLED_APPS s)).
  { unfold loaders. simpl. now rewrite app_nil_r. }
  split; [exact Heq |]. rewrite Heq. split; [| split].
  - now rewrite length_app, !length_map.
  - intros i d Hd. rewrite lookup_app_l.
    + now rewrite list_lookup_fmap, Hd.
    + rewrite length_map. now apply lookup_lt_Some in Hd.
  - intros i a Ha. rewrite lookup_app_r by (rewrite length_map; lia).
    rewrite length_map.
    replace (length (TEMPLATE_DIRS s) + i - length (TEMPLATE_DIRS s))%nat
      with i by lia.
    now rewrite list_lookup_fmap, Ha.
Qed.

Lemma loaders_order_witness :
  loaders (Settings ["/srv/templates"] ["blog"; "shop"] false ConfigAbsent)
    !! 2%nat = Some (PackageLoader "shop").
Proof.
  apply (proj2 (proj2 (proj2 (loaders_order
           (Settings ["/srv/templates"] ["blog"; "shop"] false ConfigAbsent))))
           1%nat "shop").
  reflexivity.
Defined.

(** The options [get_env] starts from have exactly five keys. *)
Lemma default_opts_keys (s : settings) (k : string) :
  is_Some (default_opts s !! k)
  <-> k ∈ ["trim_blocks"; "extensions"; "autoescape"; "auto_reload"; "loader"].
Proof.
  unfold default_opts. rewrite !lookup_insert_is_Some, lookup_empty.
  rewrite !elem_of_cons, elem_of_nil. split.
  - intros [-> | [_ [-> | [_ [-> | [_ [-> | [_ [-> | [_ [? H]]]]]]]]]]];
      auto 10; discriminate.
  - intros [-> | [-> | [-> | [-> | [-> | []]]]]].
    + now left.
    + right. split; [discriminate | now left].
    + right. split; [discriminate |]. right. split; [discriminate | now left].
    + right. split; [discriminate |]. right. split; [discriminate |].
      right. split; [discriminate | now left].
    + right. split; [discriminate |]. right. split; [discriminate |].
      right. split; [discriminate |]. right. split; [discriminate | now left].
Qed.

(** X19. [JINJA_CONFIG] has the last word on every option it names, the
    loader and autoescaping included, and the defaults stand for the
    options it does not name; a callable is called and its result used like
    a dict, and when it raises so does [get_env]. The five default options
    are always set, and the Environment always gets jingo's Template
    class. *)
Theorem config_overrides_defaults (extensions_of : options -> list string)
    (s : settings) :
  (forall config,
      JINJA_CONFIG s = ConfigDict config
      \/ (exists f, JINJA_CONFIG s = ConfigCallable f /\ f tt = Ok config) ->
      exists e,
        get_env extensions_of s = Ok e
        /\ template_class_is_jingo e = true
        /\ (forall k v, config !! k = Some v -> env_options e !! k = Some v)
        /\ (forall k, config !! k = None ->
              env_options e !! k = default_opts s !! k)
        /\ (forall k, k ∈ ["trim_blocks"; "extensions"; "autoescape";
                           "auto_reload"; "loader"] ->
              is_Some (env_options e !! k)))
  /\ (JINJA_CONFIG s = ConfigAbsent ->
      exists e, get_env extensions_of s = Ok e
                /\ env_options e = default_opts s)
  /\ (forall f e,
      JINJA_CONFIG s = ConfigCallable f -> f tt = Raise e ->
      get_env extensions_of s = Raise e).
Proof.
  split; [| split].
  - intros config Hcfg.
    assert (Hopts : get_opts s = Ok (opts_update (default_opts s) config)).
    { unfold get_opts. destruct Hcfg as [-> | (f & -> & ->)]; reflexivity. }
    unfold get_env. rewrite Hopts. eexists. split; [reflexivity |].
    cbn [template_class_is_jingo env_options]. unfold opts_update.
    split; [reflexivity |]. split; [| split].
    + intros k v Hk. now apply lookup_union_Some_l.
    + intros k Hk. now apply lookup_union_r.
    + intros k Hk. rewrite lookup_union_is_Some. right.
      now apply default_opts_keys.
  - intros Hcfg. unfold get_env, get_opts. rewrite Hcfg. eauto.
  - intros f e Hcfg Hf. unfold get_env, get_opts. now rewrite Hcfg, Hf.
Qed.

(** A configuration that turns autoescaping off and names no loader. *)
Lemma config_overrides_defaults_witness :
  let s := Settings ["/srv/templates"] ["blog"] true
             (ConfigDict {[ "autoescape" := OBool false ]}) in
  exists e,
    get_env (fun _ => []) s = Ok e
    /\ env_options e !! "autoescape" = Some (OBool false)
    /\ env_options e !! "auto_reload" = Some (OBool true)
    /\ env_options e !! "loader"
       = Some (OChoiceLoader [FileSystemLoader "/srv/templates"; PackageLoader "blog"]).
Proof.
  intros s.
  destruct (proj1 (config_overrides_defaults (fun _ => []) s)
              {[ "autoescape" := OBool false ]}) as (e & He & _ & Hin & Hout & _).
  - now left.
  - exists e. split; [exact He |]. split; [| split].
    + now apply Hin.
    + now rewrite Hout.
    + now rewrite Hout.
Defined.

End EnvFacts.
